(** * Research Assistant chat page: session state, turn handling, transcript export

    A shallow embedding of [LO_Week2_code_assignment.py], a Streamlit script.
    The script is re-executed from its first line on every user interaction;
    what survives between executions is [st.session_state].  The embedding
    keeps that store as a record, threads it through a small monad that also
    records what the page shows and which calls leave the process, and models
    one execution of the script as [script_body]. *)

From Stdlib Require Import String Ascii List Bool Arith Lia.
Import ListNotations.
Local Open Scope string_scope.
Local Open Scope list_scope.

(** ** Data *)

(** A message is the dict [{"role": ..., "content": ...}]. *)
Record Message : Type := mkMessage {
  role : string;
  content : string
}.

(** The four keys the script keeps in [st.session_state]. *)
Record SessionState : Type := mkSessionState {
  messages : list Message;
  use_web_search : bool;
  use_file_search : bool;
  conversation_active : bool
}.

(** Lines 15-22: the values given to keys that are absent at session start. *)
Definition initial_state : SessionState :=
  {| messages := [];
     use_web_search := true;
     use_file_search := true;
     conversation_active := true |}.

Definition set_messages (l : list Message) (s : SessionState) : SessionState :=
  {| messages := l;
     use_web_search := use_web_search s;
     use_file_search := use_file_search s;
     conversation_active := conversation_active s |}.

Definition set_use_web_search (b : bool) (s : SessionState) : SessionState :=
  {| messages := messages s;
     use_web_search := b;
     use_file_search := use_file_search s;
     conversation_active := conversation_active s |}.

Definition set_use_file_search (b : bool) (s : SessionState) : SessionState :=
  {| messages := messages s;
     use_web_search := use_web_search s;
     use_file_search := b;
     conversation_active := conversation_active s |}.

Definition set_conversation_active (b : bool) (s : SessionState) : SessionState :=
  {| messages := messages s;
     use_web_search := use_web_search s;
     use_file_search := use_file_search s;
     conversation_active := b |}.

(** The tools and the agent handed to the hosted runtime. *)
Inductive Tool : Type :=
| WebSearchTool
| FileSearchTool (max_num_results : nat) (vector_store_ids : list string).

Record Agent : Type := mkAgent {
  name : string;
  instructions : string;
  tools : list Tool
}.

(** What the page shows and what leaves the process during one execution. *)
Inductive Effect : Type :=
| SidebarWarning (text : string)
| ErrorBox (text : string)
| ChatMessage (who : string) (body : string)
| RunnerRun (agent : Agent) (prompt : string)
| DownloadButton (label data file_name mime : string).

(** The hosted call either produces [result.final_output] or raises. *)
Inductive RunOutcome : Type :=
| FinalOutput (text : string)
| RunFails (error : string).

(** ** Script monad

    A computation reads and updates the session store, appends to the effect
    log, and ends in a value, in a rerun request ([st.rerun()] unwinds the
    script like an exception), or in an exception nobody catches.  Updates made
    before an unwinding stay in the store. *)
Inductive Result (A : Type) : Type :=
| Ok (a : A)
| RerunRequested
| Raised (error : string).
Arguments Ok {A} a.
Arguments RerunRequested {A}.
Arguments Raised {A} error.

Definition Script (A : Type) : Type :=
  SessionState -> Result A * SessionState * list Effect.

Definition ret {A : Type} (a : A) : Script A :=
  fun s => (Ok a, s, []).

Definition bind {A B : Type} (m : Script A) (k : A -> Script B) : Script B :=
  fun s =>
    match m s with
    | (Ok a, s1, t1) =>
        match k a s1 with
        | (r, s2, t2) => (r, s2, t1 ++ t2)
        end
    | (RerunRequested, s1, t1) => (RerunRequested, s1, t1)
    | (Raised e, s1, t1) => (Raised e, s1, t1)
    end.

Notation "x <- m ;; k" := (bind m (fun x => k))
  (at level 61, m at next level, right associativity).
Notation "m ;; k" := (bind m (fun _ => k))
  (at level 61, right associativity).

Definition get_state : Script SessionState := fun s => (Ok s, s, []).
Definition modify (f : SessionState -> SessionState) : Script unit :=
  fun s => (Ok tt, f s, []).
Definition emit (e : Effect) : Script unit := fun s => (Ok tt, s, [e]).
Definition rerun {A : Type} : Script A := fun s => (RerunRequested, s, []).
Definition raise {A : Type} (e : string) : Script A := fun s => (Raised e, s, []).

Definition result_of {A : Type} (x : Result A * SessionState * list Effect) : Result A :=
  fst (fst x).
Definition state_of {A : Type} (x : Result A * SessionState * list Effect) : SessionState :=
  snd (fst x).
Definition effects_of {A : Type} (x : Result A * SessionState * list Effect) : list Effect :=
  snd x.

(** ** Python string helpers *)

Definition newline : string := String "010"%char "".
Definition dquote : string := String "034"%char "".

(** [if user_question:] -- [None] and the empty string are both falsy. *)
Definition truthy (s : string) : bool :=
  match s with
  | "" => false
  | String _ _ => true
  end.

Fixpoint map_string (f : ascii -> ascii) (s : string) : string :=
  match s with
  | "" => ""
  | String c rest => String (f c) (map_string f rest)
  end.

Fixpoint flat_map_string (f : ascii -> string) (s : string) : string :=
  match s with
  | "" => ""
  | String c rest => f c ++ flat_map_string f rest
  end.

(** [s.replace(old, new)] for a non-empty [old]: occurrences are found from the
    left and do not overlap.  [skip] counts the characters of the occurrence
    just replaced that are still to be passed over. *)
Fixpoint replace_from (old new : string) (skip : nat) (s : string) : string :=
  match s with
  | "" => ""
  | String c rest =>
      match skip with
      | S k => replace_from old new k rest
      | O =>
          if prefix old s
          then new ++ replace_from old new (String.length old - 1) rest
          else String c (replace_from old new 0 rest)
      end
  end.

(** [s.replace(old, new)]; an empty [old] puts [new] before every character
    and after the last one. *)
Definition replace (old new s : string) : string :=
  match old with
  | "" => new ++ flat_map_string (fun c => String c new) s
  | String _ _ => replace_from old new 0 s
  end.

Definition is_lower (c : ascii) : bool := (("a" <=? c) && (c <=? "z"))%char.
Definition is_upper (c : ascii) : bool := (("A" <=? c) && (c <=? "Z"))%char.

Definition to_upper (c : ascii) : ascii :=
  if is_lower c then ascii_of_nat (nat_of_ascii c - 32) else c.
Definition to_lower (c : ascii) : ascii :=
  if is_upper c then ascii_of_nat (nat_of_ascii c + 32) else c.

(** [s.capitalize()] on ASCII text: first character upper-cased, the others
    lower-cased.  The roles this script stores are the literals ["user"] and
    ["assistant"]. *)
Definition capitalize (s : string) : string :=
  match s with
  | "" => ""
  | String c rest => String (to_upper c) (map_string to_lower rest)
  end.

(** ** The store operations *)

(** [st.session_state.messages.append(m)] *)
Definition append_message (m : Message) : Script unit :=
  modify (fun s => set_messages (messages s ++ [m]) s).

(** [st.session_state.messages = []] *)
Definition clear_messages : Script unit :=
  modify (set_messages []).

(** Reading [st.session_state.messages]. *)
Definition all_messages : Script (list Message) :=
  fun s => (Ok (messages s), s, []).

(** ** Transcript export (lines 103-118) *)

Definition html_header : string :=
  newline ++
  "    <html><head><style>" ++ newline ++
  "    body { font-family: Arial, sans-serif; padding: 20px; }" ++ newline ++
  "    .user { color: blue; margin-bottom: 10px; }" ++ newline ++
  "    .assistant { color: green; margin-bottom: 20px; }" ++ newline ++
  "    .message { border-bottom: 1px solid #ddd; padding-bottom: 10px; }" ++ newline ++
  "    </style></head><body>" ++ newline ++
  "    <h2>Conversation Transcript</h2>" ++ newline ++
  "    ".

Definition html_footer : string := "</body></html>".

(** The chain of four [replace] calls of line 115. *)
Definition escape_content (text : string) : string :=
  replace newline "<br>"
    (replace ">" "&gt;"
       (replace "<" "&lt;"
          (replace "&" "&amp;" text))).

(** Lines 114-116: the block added for one message. *)
Definition message_div (msg : Message) : string :=
  let role_class := if (role msg =? "user")%string then "user" else "assistant" in
  let content := escape_content (content msg) in
  "<div class=" ++ dquote ++ "message " ++ role_class ++ dquote ++ "><strong>"
    ++ capitalize (role msg) ++ ":</strong><br>" ++ content ++ "</div>".

Definition format_messages_as_html (messages : list Message) : string :=
  let html := html_header in
  let html := fold_left (fun html msg => (html ++ message_div msg)%string) messages html in
  (html ++ html_footer)%string.

(** ** The hosted agent (lines 25-48) *)

Definition agent_instructions : string :=
  "You are a world class lawyer, capable of reasoning, finding weaknesses in briefs, using the legal documents that support your arguments and accessing files on Google Drive.  "
  ++ newline ++
  "        When you summarize documents such as briefs do so in clear and accurate language.  When you provide output that identifies weaknesses in the brief’s legal arguments be logical.  Cite case references. "
  ++ newline ++
  "        You also are skilled in researching anything related to the law using resources at your disposal.  However, never ever suggest or use incorrect or unverifiable resources and case law.  Only access files that are publicly available or authorized for use.".

Definition no_tool_warning : string := "Please select at least one search source".
Definition no_tool_error : string :=
  "Please select at least one search source in the sidebar".
Definition end_notice : string :=
  "Conversation ended. Leave the window open to restart it anytime. Otherwise you may close the browser window.".

(** The condition of lines 66 and 128. *)
Definition no_tool_selected (s : SessionState) : bool :=
  negb (use_web_search s) && negb (use_file_search s).

(** The send precondition: the [else] side of line 128. *)
Definition canSend (s : SessionState) : bool := negb (no_tool_selected s).

(** [f"{msg['role']}: {msg['content']}"] *)
Definition history_line (msg : Message) : string :=
  role msg ++ ": " ++ content msg.

(** Line 45. *)
Definition build_context (history : list Message) : string :=
  String.concat newline (map history_line history).

(** Line 46. *)
Definition build_prompt (context question : string) : string :=
  "Context of our conversation:" ++ newline ++ context ++ newline ++ newline
    ++ "Current question: " ++ question.

Section Page.

(** The two collaborators outside the script: the environment variable read
    at line 12, and the hosted runtime behind [Runner.run].  One execution
    of the script makes at most one call, so a function of the request is
    enough to describe the runtime's reply. *)
Variable vector_store_id : string.
Variable Runner_run : Agent -> string -> RunOutcome.

Definition create_research_assistant : Script Agent :=
  s <- get_state ;;
  let tools := [] in
  let tools := if use_web_search s then tools ++ [WebSearchTool] else tools in
  let tools :=
    if use_file_search s
    then tools ++ [FileSearchTool 3 [vector_store_id]]
    else tools in
  ret {| name := "Research Assistant";
         instructions := agent_instructions;
         tools := tools |}.

(** [await Runner.run(agent, prompt)]: the call is logged, then it either
    yields the final output or raises. *)
Definition await_runner (agent : Agent) (prompt : string) : Script string :=
  emit (RunnerRun agent prompt) ;;
  match Runner_run agent prompt with
  | FinalOutput text => ret text
  | RunFails e => raise e
  end.

Definition get_research_response (question : string) (history : list Message)
  : Script string :=
  agent <- create_research_assistant ;;
  let context := build_context history in
  let prompt := build_prompt context question in
  await_runner agent prompt.

(** ** Sidebar handlers *)

(** Lines 76-78. *)
Definition clear_conversation : Script unit :=
  clear_messages ;;
  rerun.

(** Lines 81-87. *)
Definition end_conversation : Script unit :=
  modify (set_conversation_active false) ;;
  append_message {| role := "assistant"; content := end_notice |} ;;
  rerun.

(** ** Chat input (lines 126-139) *)

Definition ask (user_question : string) : Script unit :=
  s <- get_state ;;
  if no_tool_selected s then
    emit (ErrorBox no_tool_error)
  else
    append_message {| role := "user"; content := user_question |} ;;
    emit (ChatMessage "user" user_question) ;;
    history <- all_messages ;;
    response <- get_research_response user_question history ;;
    emit (ChatMessage "assistant" response) ;;
    append_message {| role := "assistant"; content := response |}.

(** [st.chat_input] gives [None] when nothing was submitted. *)
Definition chat_input_handler (user_question : option string) : Script unit :=
  match user_question with
  | None => ret tt
  | Some q => if truthy q then ask q else ret tt
  end.

(** ** One execution of the script *)

(** What the widgets report to one execution. *)
Record Widgets : Type := mkWidgets {
  web_search_toggle : bool;
  file_search_toggle : bool;
  clear_clicked : bool;
  end_clicked : bool;
  chat_input : option string
}.

(** Lines 121-123. *)
Fixpoint display_messages (l : list Message) : Script unit :=
  match l with
  | [] => ret tt
  | message :: rest =>
      emit (ChatMessage (role message) (content message)) ;;
      display_messages rest
  end.

(** Lines 142-148. *)
Definition save_conversation_button : Script unit :=
  s <- get_state ;;
  let html_data := format_messages_as_html (messages s) in
  emit (DownloadButton "Save Conversation" html_data "conversation.html" "text/html").

Definition script_body (w : Widgets) : Script unit :=
  modify (set_use_web_search (web_search_toggle w)) ;;
  modify (set_use_file_search (file_search_toggle w)) ;;
  s <- get_state ;;
  (if no_tool_selected s then emit (SidebarWarning no_tool_warning) else ret tt) ;;
  (if clear_clicked w then clear_conversation else ret tt) ;;
  (if end_clicked w then end_conversation else ret tt) ;;
  shown <- all_messages ;;
  display_messages shown ;;
  chat_input_handler (chat_input w) ;;
  save_conversation_button.

(** Buttons and the chat box report a click or a submission to one
    execution only; the toggles keep their positions. *)
Definition without_triggers (w : Widgets) : Widgets :=
  {| web_search_toggle := web_search_toggle w;
     file_search_toggle := file_search_toggle w;
     clear_clicked := false;
     end_clicked := false;
     chat_input := None |}.

(** A user interaction: the script runs, and runs once more from the top
    when a handler asked for a rerun. *)
Definition script_run (w : Widgets) : Script unit :=
  fun s =>
    match script_body w s with
    | (RerunRequested, s1, t1) =>
        match script_body (without_triggers w) s1 with
        | (r, s2, t2) => (r, s2, t1 ++ t2)
        end
    | done => done
    end.

End Page.

(** ** Vocabulary of the specification *)

(** The requests that reached the hosted runtime, in order. *)
Fixpoint runner_calls (log : list Effect) : list (Agent * string) :=
  match log with
  | [] => []
  | RunnerRun agent prompt :: rest => (agent, prompt) :: runner_calls rest
  | _ :: rest => runner_calls rest
  end.

(** The error boxes shown on the page, in order. *)
Fixpoint error_boxes (log : list Effect) : list string :=
  match log with
  | [] => []
  | ErrorBox text :: rest => text :: error_boxes rest
  | _ :: rest => error_boxes rest
  end.

(** The tool set the specification derives from the two flags. *)
Definition selected_tools (vector_store_id : string) (s : SessionState) : list Tool :=
  (if use_web_search s then [WebSearchTool] else []) ++
  (if use_file_search s then [FileSearchTool 3 [vector_store_id]] else []).

Definition research_assistant (vector_store_id : string) (s : SessionState) : Agent :=
  {| name := "Research Assistant";
     instructions := agent_instructions;
     tools := selected_tools vector_store_id s |}.

Definition user_message (q : string) : Message :=
  {| role := "user"; content := q |}.
Definition assistant_message (a : string) : Message :=
  {| role := "assistant"; content := a |}.

(** Operations on the ConversationStore, as a client issues them. *)
Inductive StoreOp : Type :=
| Append (m : Message)
| Clear.

Definition store_step (op : StoreOp) : Script unit :=
  match op with
  | Append m => append_message m
  | Clear => clear_messages
  end.

Fixpoint store_run (ops : list StoreOp) : Script unit :=
  match ops with
  | [] => ret tt
  | op :: rest => store_step op ;; store_run rest
  end.

Fixpoint has_clear (ops : list StoreOp) : bool :=
  match ops with
  | [] => false
  | Clear :: _ => true
  | Append _ :: rest => has_clear rest
  end.

(** The operations issued after the last [Clear] (all of them when there is
    none). *)
Fixpoint after_last_clear (ops : list StoreOp) : list StoreOp :=
  match ops with
  | [] => []
  | op :: rest =>
      if has_clear rest then after_last_clear rest
      else match op with
           | Clear => rest
           | Append _ => op :: rest
           end
  end.

(** The messages of the [Append]s, in the order issued. *)
Fixpoint appended (ops : list StoreOp) : list Message :=
  match ops with
  | [] => []
  | Append m :: rest => m :: appended rest
  | Clear :: rest => appended rest
  end.

(** How many stored messages the [Clear]s of [ops] throw away, when [present]
    messages are stored at the start: each [Clear] removes what is there. *)
Fixpoint removed_by_clear (present : nat) (ops : list StoreOp) : nat :=
  match ops with
  | [] => 0
  | Append _ :: rest => removed_by_clear (S present) rest
  | Clear :: rest => present + removed_by_clear 0 rest
  end.

(** The escaping the specification asks of the exporter, character by
    character. *)
Definition escape_char (c : ascii) : string :=
  if (c =? "&")%char then "&amp;"
  else if (c =? "<")%char then "&lt;"
  else if (c =? ">")%char then "&gt;"
  else if (c =? "010")%char then "<br>"
  else String c "".

Definition markup_significant (c : ascii) : bool :=
  ((c =? "&") || (c =? "<") || (c =? ">") || (c =? "010"))%char.

(** A text is markup-free when it is a sequence of ordinary characters, the
    three entities and line breaks: every ampersand opens one of the entities,
    every angle bracket belongs to a line break, and no newline is left. *)
Fixpoint markup_free_from (skip : nat) (s : string) : bool :=
  match s with
  | "" => true
  | String c rest =>
      match skip with
      | S k => markup_free_from k rest
      | O =>
          if prefix "&amp;" s then markup_free_from 4 rest
          else if prefix "&lt;" s then markup_free_from 3 rest
          else if prefix "&gt;" s then markup_free_from 3 rest
          else if prefix "<br>" s then markup_free_from 3 rest
          else negb (markup_significant c) && markup_free_from 0 rest
      end
  end.

Definition markup_free (s : string) : bool := markup_free_from 0 s.

(** The roles this script ever stores. *)
Definition known_role (m : Message) : bool :=
  ((role m =? "user") || (role m =? "assistant"))%string.

(** Stand-ins for the hosted runtime, for running the page on examples: one
    that answers every request with the same text, one that always raises. *)
Definition stub_answers (answer : string) : Agent -> string -> RunOutcome :=
  fun _ _ => FinalOutput answer.
Definition stub_fails (error : string) : Agent -> string -> RunOutcome :=
  fun _ _ => RunFails error.

(** ** Start-up configuration (lines 8-12) *)

(** [os.environ] once [load_dotenv(override=True)] has run: a lookup by key. *)
Definition Environ : Type := string -> option string.

(** [os.environ[key]]: a missing key raises [KeyError], which carries the
    key. *)
Definition environ_get (environ : Environ) (key : string) : Script string :=
  match environ key with
  | Some value => ret value
  | None => raise key
  end.

(** The script from its first line: the two environment reads, then the
    page. *)
Definition page_body (environ : Environ) (Runner_run : Agent -> string -> RunOutcome)
  (w : Widgets) : Script unit :=
  OPENAI_API_KEY <- environ_get environ "OPENAI_API_KEY" ;;
  vector_store_id <- environ_get environ "vector_store_id" ;;
  script_body vector_store_id Runner_run w.

(** A user interaction with the whole script: as [script_run], the
    execution that follows a rerun request starts again at line 1. *)
Definition page_run (environ : Environ) (Runner_run : Agent -> string -> RunOutcome)
  (w : Widgets) : Script unit :=
  fun s =>
    match page_body environ Runner_run w s with
    | (RerunRequested, s1, t1) =>
        match page_body environ Runner_run (without_triggers w) s1 with
        | (r, s2, t2) => (r, s2, t1 ++ t2)
        end
    | done => done
    end.

(** ** A session: one interaction after the other *)

(** An interaction is what the widgets report together with how the hosted
    runtime replies during that execution. *)
Record Interaction : Type := mkInteraction {
  widgets : Widgets;
  runtime : Agent -> string -> RunOutcome
}.

(** [st.session_state] is carried from one interaction to the next, however
    the execution ended. *)
Fixpoint session_run (vector_store_id : string) (steps : list Interaction)
  (s : SessionState) : SessionState :=
  match steps with
  | [] => s
  | step :: rest =>
      session_run vector_store_id rest
        (state_of (script_run vector_store_id (runtime step) (widgets step) s))
  end.

(** The documents offered for download, in order. *)
Fixpoint download_buttons (log : list Effect) : list string :=
  match log with
  | [] => []
  | DownloadButton _ data _ _ :: rest => data :: download_buttons rest
  | _ :: rest => download_buttons rest
  end.

(** The sidebar warnings shown, in order. *)
Fixpoint sidebar_warnings (log : list Effect) : list string :=
  match log with
  | [] => []
  | SidebarWarning text :: rest => text :: sidebar_warnings rest
  | _ :: rest => sidebar_warnings rest
  end.

(** Widget reports for running the page on examples: a question submitted
    with the toggles in given positions, and a click on each button with both
    toggles on. *)
Definition question_submitted (web file : bool) (q : string) : Widgets :=
  {| web_search_toggle := web;
     file_search_toggle := file;
     clear_clicked := false;
     end_clicked := false;
     chat_input := Some q |}.

Definition clear_button_clicked : Widgets :=
  {| web_search_toggle := true;
     file_search_toggle := true;
     clear_clicked := true;
     end_clicked := false;
     chat_input := None |}.

Definition end_button_clicked : Widgets :=
  {| web_search_toggle := true;
     file_search_toggle := true;
     clear_clicked := false;
     end_clicked := true;
     chat_input := None |}.

(** * Properties *)

(** ** Strings *)

Lemma string_app_assoc (a b c : string) :
  ((a ++ b) ++ c = a ++ (b ++ c))%string.
Proof.
  induction a as [|x a IH]; simpl.
  - reflexivity.
  - now rewrite IH.
Qed.

Lemma string_app_nil_r (a : string) : (a ++ "" = a)%string.
Proof.
  induction a as [|x a IH]; simpl; [reflexivity | now rewrite IH].
Qed.

(** Joining a list that ends in [x]: the separator comes before [x] unless [x]
    is alone. *)
Lemma concat_snoc (sep x : string) (l : list string) :
  String.concat sep (l ++ [x]) =
    match l with
    | [] => x
    | _ :: _ => (String.concat sep l ++ sep ++ x)%string
    end.
Proof.
  induction l as [|y l IH].
  - reflexivity.
  - destruct l as [|z l].
    + reflexivity.
    + change (String.concat sep ((y :: z :: l) ++ [x]))
        with (y ++ sep ++ String.concat sep ((z :: l) ++ [x]))%string.
      rewrite IH.
      change (String.concat sep (y :: z :: l))
        with (y ++ sep ++ String.concat sep (z :: l))%string.
      now rewrite !string_app_assoc.
Qed.

Lemma flat_map_string_app (f : ascii -> string) (a b : string) :
  flat_map_string f (a ++ b) = (flat_map_string f a ++ flat_map_string f b)%string.
Proof.
  induction a as [|x a IH]; simpl.
  - reflexivity.
  - now rewrite IH, string_app_assoc.
Qed.

Lemma flat_map_string_ext (f g : ascii -> string) (s : string) :
  (forall c, f c = g c) -> flat_map_string f s = flat_map_string g s.
Proof.
  intros Hfg. induction s as [|x s IH]; simpl.
  - reflexivity.
  - now rewrite Hfg, IH.
Qed.

Lemma flat_map_string_compose (f g : ascii -> string) (s : string) :
  flat_map_string g (flat_map_string f s)
  = flat_map_string (fun c => flat_map_string g (f c)) s.
Proof.
  induction s as [|x s IH]; simpl.
  - reflexivity.
  - now rewrite flat_map_string_app, IH.
Qed.

(** Replacing a one-character pattern works character by character. *)
Lemma replace_char (c : ascii) (new s : string) :
  replace (String c "") new s
  = flat_map_string (fun x => if (x =? c)%char then new else String x "") s.
Proof.
  unfold replace.
  induction s as [|x s IH].
  - reflexivity.
  - cbn [replace_from flat_map_string prefix String.length Nat.sub].
    destruct (ascii_dec c x) as [Heq | Hneq].
    + subst x. rewrite Ascii.eqb_refl.
      destruct s; now rewrite IH.
    + destruct (Ascii.eqb_spec x c) as [Heq | _]; [congruence |].
      now rewrite IH.
Qed.

(** ** The turn handler *)

Lemma set_conversation_active_same (s : SessionState) :
  set_conversation_active (conversation_active s) s = s.
Proof. destruct s; reflexivity. Qed.

Lemma build_context_snoc (history : list Message) (m : Message) :
  build_context (history ++ [m]) =
    match history with
    | [] => history_line m
    | _ :: _ => (build_context history ++ newline ++ history_line m)%string
    end.
Proof.
  unfold build_context. rewrite map_app. cbn [map].
  rewrite concat_snoc. destruct history; reflexivity.
Qed.

Section Turn.

Variable vs : string.
Variable R : Agent -> string -> RunOutcome.

Lemma canSend_flags (s : SessionState) :
  canSend s = true <-> use_web_search s = true \/ use_file_search s = true.
Proof.
  unfold canSend, no_tool_selected.
  destruct (use_web_search s), (use_file_search s); simpl; intuition congruence.
Qed.

Lemma create_research_assistant_run (s : SessionState) :
  create_research_assistant vs s = (Ok (research_assistant vs s), s, []).
Proof.
  unfold create_research_assistant, research_assistant, selected_tools.
  cbv [bind get_state ret].
  destruct (use_web_search s), (use_file_search s); reflexivity.
Qed.

(** What [ask] does once the tool check has passed: the question is stored,
    the runtime is called with the store as it then stands, and the answer is
    stored unless the call raised. *)
Lemma ask_accepted (s : SessionState) (q : string) :
  canSend s = true ->
  ask vs R q s =
    let s1 := set_messages (messages s ++ [user_message q]) s in
    let agent := research_assistant vs s in
    let prompt := build_prompt (build_context (messages s1)) q in
    match R agent prompt with
    | FinalOutput a =>
        (Ok tt,
         set_messages (messages s1 ++ [assistant_message a]) s1,
         [ChatMessage "user" q; RunnerRun agent prompt; ChatMessage "assistant" a])
    | RunFails e =>
        (Raised e, s1, [ChatMessage "user" q; RunnerRun agent prompt])
    end.
Proof.
  intros Hsend.
  unfold canSend in Hsend. apply negb_true_iff in Hsend.
  unfold ask.
  cbv [bind get_state]. rewrite Hsend.
  cbv [append_message modify emit all_messages get_research_response bind].
  rewrite create_research_assistant_run.
  change (research_assistant vs (set_messages (messages s ++ [user_message q]) s))
    with (research_assistant vs s).
  cbv [await_runner bind emit]. cbn [messages set_messages].
  destruct (R _ _); reflexivity.
Qed.

(** What [ask] does when no tool is selected. *)
Lemma ask_rejected (s : SessionState) (q : string) :
  canSend s = false ->
  ask vs R q s = (Ok tt, s, [ErrorBox no_tool_error]).
Proof.
  intros Hsend.
  unfold canSend in Hsend. apply negb_false_iff in Hsend.
  unfold ask.
  cbv [bind get_state]. rewrite Hsend. reflexivity.
Qed.

(** An accepted turn sends exactly one request. *)
Lemma ask_accepted_calls (s : SessionState) (q : string) :
  canSend s = true ->
  runner_calls (effects_of (ask vs R q s)) =
    [(research_assistant vs s,
      build_prompt (build_context (messages s ++ [user_message q])) q)].
Proof.
  intros Hsend. rewrite (ask_accepted s q Hsend). cbv zeta.
  cbn [messages set_messages].
  destruct (R _ _); reflexivity.
Qed.

(** The [active] flag is never read by [ask]. *)
Lemma ask_ignores_active (b : bool) (s : SessionState) (q : string) :
  ask vs R q (set_conversation_active b s) =
    match ask vs R q s with
    | (r, s', log) => (r, set_conversation_active b s', log)
    end.
Proof.
  destruct (canSend s) eqn:Hsend.
  - rewrite (ask_accepted s q Hsend).
    rewrite (ask_accepted (set_conversation_active b s) q) by exact Hsend.
    cbv zeta.
    change (research_assistant vs (set_conversation_active b s))
      with (research_assistant vs s).
    cbn [messages set_messages set_conversation_active].
    destruct (R _ _); reflexivity.
  - rewrite (ask_rejected s q Hsend).
    rewrite (ask_rejected (set_conversation_active b s) q) by exact Hsend.
    reflexivity.
Qed.

(** C1: with both tool flags off, a submitted question is answered by the
    error box alone: the session state (the stored messages included) is
    what it was and the hosted runtime is not called; and [canSend] holds
    exactly when one of the two flags is on, in each of the four
    combinations. *)
Theorem C1_no_tool_rejected :
  (forall (stored : list Message) (active : bool) (q : string),
      let s := {| messages := stored;
                  use_web_search := false;
                  use_file_search := false;
                  conversation_active := active |} in
      let out := ask vs R q s in
      canSend s = false
      /\ result_of out = Ok tt
      /\ error_boxes (effects_of out) = [no_tool_error]
      /\ state_of out = s
      /\ messages (state_of out) = stored
      /\ runner_calls (effects_of out) = []
      /\ forall c rest,
          q = String c rest -> chat_input_handler vs R (Some q) s = out)
  /\ (forall s : SessionState,
        canSend s = true <-> use_web_search s = true \/ use_file_search s = true)
  /\ (forall (stored : list Message) (active : bool),
        canSend (mkSessionState stored false false active) = false
        /\ canSend (mkSessionState stored false true active) = true
        /\ canSend (mkSessionState stored true false active) = true
        /\ canSend (mkSessionState stored true true active) = true).
Proof.
  split; [| split].
  - intros stored active q s out.
    assert (Hsend : canSend s = false) by reflexivity.
    subst out. rewrite (ask_rejected s q Hsend).
    repeat split.
    intros c rest ->. cbn [chat_input_handler truthy].
    now rewrite (ask_rejected s _ Hsend).
  - exact canSend_flags.
  - intros stored active. repeat split.
Qed.

(** C2: when the call to the hosted runtime raises, the turn ends in that
    exception, uncaught; the store holds the earlier messages followed by
    the user's question and no assistant message was added or shown. *)
Theorem C2_gateway_failure
  (s : SessionState) (q : string) (agent : Agent) (prompt e : string) :
  canSend s = true ->
  In (agent, prompt) (runner_calls (effects_of (ask vs R q s))) ->
  R agent prompt = RunFails e ->
  let out := ask vs R q s in
  result_of out = Raised e
  /\ state_of out = set_messages (messages s ++ [user_message q]) s
  /\ messages (state_of out) = messages s ++ [user_message q]
  /\ effects_of out = [ChatMessage "user" q; RunnerRun agent prompt].
Proof.
  intros Hsend Hcall Hfail out.
  rewrite (ask_accepted_calls s q Hsend) in Hcall.
  destruct Hcall as [Hcall | []].
  injection Hcall as <- <-.
  subst out. rewrite (ask_accepted s q Hsend). cbv zeta.
  cbn [messages set_messages] in *.
  rewrite Hfail. repeat split.
Qed.

(** C4: when the call to the hosted runtime returns the answer [a], the
    turn completes and the store is its earlier content followed by the
    user message for the question and the assistant message for [a]. *)
Theorem C4_successful_turn
  (s : SessionState) (q : string) (agent : Agent) (prompt a : string) :
  canSend s = true ->
  In (agent, prompt) (runner_calls (effects_of (ask vs R q s))) ->
  R agent prompt = FinalOutput a ->
  let out := ask vs R q s in
  result_of out = Ok tt
  /\ messages (state_of out)
     = messages s ++ [{| role := "user"; content := q |};
                      {| role := "assistant"; content := a |}].
Proof.
  intros Hsend Hcall Hans out.
  rewrite (ask_accepted_calls s q Hsend) in Hcall.
  destruct Hcall as [Hcall | []].
  injection Hcall as <- <-.
  subst out. rewrite (ask_accepted s q Hsend). cbv zeta.
  cbn [messages set_messages] in *.
  rewrite Hans. split; [reflexivity |].
  cbn [state_of fst snd messages set_messages].
  now rewrite <- app_assoc.
Qed.

(** C5, as the code has it: an accepted turn sends one request, whose
    context is one "role: content" entry per message of the store at the
    time of the call, joined by newlines in store order.  The question has
    been stored by then, so the context is the entries of the earlier
    messages followed by the entry "user: " plus the question, and the
    question appears once more after "Current question: ". *)
Theorem C5_context_includes_question (s : SessionState) (q : string) :
  canSend s = true ->
  runner_calls (effects_of (ask vs R q s)) =
    [(research_assistant vs s,
      build_prompt (build_context (messages s ++ [user_message q])) q)]
  /\ build_context (messages s ++ [user_message q]) =
       match messages s with
       | [] => ("user: " ++ q)%string
       | _ :: _ => (build_context (messages s) ++ newline ++ "user: " ++ q)%string
       end
  /\ (forall history,
        build_context history = String.concat newline (map history_line history))
  /\ (forall context,
        build_prompt context q =
          ("Context of our conversation:" ++ newline ++ context ++ newline ++ newline
             ++ "Current question: " ++ q)%string).
Proof.
  intros Hsend. split; [| split; [| split]].
  - exact (ask_accepted_calls s q Hsend).
  - rewrite build_context_snoc. destruct (messages s); reflexivity.
  - reflexivity.
  - reflexivity.
Qed.

(** C7: in a session that has been ended, a question asked with a tool
    selected is handled exactly as in the same session still active: same
    outcome, same requests and page output, same stored messages; the
    question is stored, the hosted runtime is called once, its answer is
    stored, and the flag stays off. *)
Theorem C7_inactive_session_accepts_input (s : SessionState) (q : string) :
  conversation_active s = false ->
  canSend s = true ->
  let off := ask vs R q s in
  let on := ask vs R q (set_conversation_active true s) in
  result_of off = result_of on
  /\ effects_of off = effects_of on
  /\ messages (state_of off) = messages (state_of on)
  /\ conversation_active (state_of off) = false
  /\ exists agent prompt,
      runner_calls (effects_of off) = [(agent, prompt)]
      /\ forall a,
          R agent prompt = FinalOutput a ->
          result_of off = Ok tt
          /\ messages (state_of off)
             = messages s ++ [user_message q; assistant_message a].
Proof.
  intros Hoff Hsend off on.
  assert (Hon : on = match off with
                     | (r, s', log) => (r, set_conversation_active true s', log)
                     end).
  { subst on off. apply ask_ignores_active. }
  assert (Hcalls := ask_accepted_calls s q Hsend).
  assert (Hacc := ask_accepted s q Hsend). cbv zeta in Hacc.
  cbn [messages set_messages] in Hacc.
  fold off in Hcalls, Hacc.
  rewrite Hon. clearbody off. clear on Hon.
  destruct (R (research_assistant vs s)
              (build_prompt (build_context (messages s ++ [user_message q])) q))
    as [a | e] eqn:HR; subst off;
    cbn [result_of effects_of state_of fst snd messages set_messages
           set_conversation_active conversation_active];
    (repeat split; try assumption);
    eexists _, _; (split; [exact Hcalls |]);
    intros a' Ha'; rewrite HR in Ha'; try discriminate.
  injection Ha' as <-. split; [reflexivity | now rewrite <- app_assoc].
Qed.

End Turn.

(** ** The conversation store *)

Lemma store_step_run (op : StoreOp) (s : SessionState) :
  store_step op s =
    (Ok tt,
     set_messages match op with
                  | Append m => messages s ++ [m]
                  | Clear => []
                  end s,
     []).
Proof. destruct op; reflexivity. Qed.

Lemma store_run_cons (op : StoreOp) (rest : list StoreOp) (s : SessionState) :
  store_run (op :: rest) s = store_run rest (state_of (store_step op s)).
Proof.
  cbn [store_run]. unfold bind. rewrite store_step_run.
  cbn [state_of fst snd].
  destruct (store_run rest _) as [[r s2] log]. reflexivity.
Qed.

Lemma after_last_clear_none (ops : list StoreOp) :
  has_clear ops = false -> after_last_clear ops = ops.
Proof.
  induction ops as [|[m|] rest IH]; cbn [has_clear after_last_clear]; intros H.
  - reflexivity.
  - now rewrite H.
  - discriminate.
Qed.

(** A run of store operations completes, shows nothing, touches only the
    message list, and leaves what was appended since the last [Clear]. *)
Lemma store_run_spec (ops : list StoreOp) (s : SessionState) :
  store_run ops s =
    (Ok tt,
     set_messages ((if has_clear ops then [] else messages s)
                     ++ appended (after_last_clear ops)) s,
     []).
Proof.
  revert s. induction ops as [|op rest IH]; intros s.
  - cbn. rewrite app_nil_r. destruct s; reflexivity.
  - rewrite store_run_cons, store_step_run, IH.
    cbn [state_of fst snd messages set_messages].
    destruct op as [m|]; cbn [has_clear after_last_clear].
    + destruct (has_clear rest) eqn:Hc.
      * reflexivity.
      * rewrite (after_last_clear_none rest Hc). cbn [appended].
        now rewrite <- app_assoc.
    + destruct (has_clear rest) eqn:Hc.
      * reflexivity.
      * now rewrite (after_last_clear_none rest Hc).
Qed.

Lemma store_run_length (ops : list StoreOp) (s : SessionState) :
  length (messages (state_of (store_run ops s)))
    + removed_by_clear (length (messages s)) ops
  = length (messages s) + length (appended ops).
Proof.
  revert s. induction ops as [|op rest IH]; intros s.
  - cbn. lia.
  - rewrite store_run_cons, store_step_run.
    cbn [state_of fst snd].
    specialize (IH (set_messages match op with
                                 | Append m => messages s ++ [m]
                                 | Clear => []
                                 end s)).
    destruct op as [m|]; cbn [removed_by_clear appended length messages set_messages] in *.
    + rewrite length_app in IH. cbn [length] in IH.
      replace (length (messages s) + 1) with (S (length (messages s))) in IH by lia.
      lia.
    + lia.
Qed.

(** C3: after any sequence of appends and clears, reading the store gives
    the messages appended since the last clear (after the starting content
    when there was no clear), in the order appended; its length is the
    starting length plus the number of appends minus the messages the clears
    removed; and a clear leaves the store empty. *)
Theorem C3_store_order (ops : list StoreOp) (s : SessionState) :
  let after := state_of (store_run ops s) in
  result_of ((store_run ops ;; all_messages) s) = Ok (messages after)
  /\ messages after
     = (if has_clear ops then [] else messages s) ++ appended (after_last_clear ops)
  /\ length (messages after)
     = length (messages s) + length (appended ops)
       - removed_by_clear (length (messages s)) ops
  /\ removed_by_clear (length (messages s)) ops
     <= length (messages s) + length (appended ops)
  /\ result_of ((store_run ops ;; clear_messages ;; all_messages) s) = Ok []
  /\ state_of ((store_run ops ;; clear_messages) s) = set_messages [] s.
Proof.
  intros after.
  pose proof (store_run_length ops s) as Hlen. fold after in Hlen.
  subst after. rewrite store_run_spec in *.
  cbn [state_of fst snd messages set_messages] in *.
  repeat split.
  - unfold bind. rewrite store_run_spec. reflexivity.
  - lia.
  - lia.
  - unfold bind. rewrite store_run_spec. reflexivity.
  - unfold bind. rewrite store_run_spec. reflexivity.
Qed.

(** ** Ending and clearing the conversation *)

Lemma end_conversation_run (s : SessionState) :
  end_conversation s =
    (RerunRequested,
     {| messages := messages s ++ [assistant_message end_notice];
        use_web_search := use_web_search s;
        use_file_search := use_file_search s;
        conversation_active := false |},
     []).
Proof. reflexivity. Qed.

Lemma clear_conversation_run (s : SessionState) :
  clear_conversation s = (RerunRequested, set_messages [] s, []).
Proof. reflexivity. Qed.

(** C6: the End Conversation handler turns the active flag off and adds the
    fixed closing message, an assistant message, after the messages already
    stored, which stay as they were; nothing else in the session changes.
    Run a second time it adds the closing message again. *)
Theorem C6_end_appends_terminal (s : SessionState) :
  let terminal := {| role := "assistant"; content := end_notice |} in
  let once := state_of (end_conversation s) in
  let twice := state_of (end_conversation once) in
  conversation_active once = false
  /\ messages once = messages s ++ [terminal]
  /\ use_web_search once = use_web_search s
  /\ use_file_search once = use_file_search s
  /\ conversation_active twice = false
  /\ messages twice = messages s ++ [terminal; terminal]
  /\ length (messages twice) = length (messages s) + 2.
Proof.
  intros terminal once twice. subst once twice terminal.
  rewrite !end_conversation_run.
  cbn [state_of fst snd messages conversation_active use_web_search use_file_search].
  rewrite <- app_assoc. cbn [app].
  repeat split.
  rewrite length_app. reflexivity.
Qed.

(** C10: the Clear Conversation handler empties the message list and leaves
    the two tool flags and the active flag at the values they had. *)
Theorem C10_clear_keeps_flags (s : SessionState) :
  let after := state_of (clear_conversation s) in
  messages after = []
  /\ use_web_search after = use_web_search s
  /\ use_file_search after = use_file_search s
  /\ conversation_active after = conversation_active s
  /\ state_of (clear_messages s) = after.
Proof.
  intros after. subst after. rewrite clear_conversation_run.
  repeat split.
Qed.

(** ** Transcript export *)

Lemma prefix_empty (s : string) : prefix "" s = true.
Proof. destruct s; reflexivity. Qed.

Lemma concat_empty_cons (x : string) (l : list string) :
  String.concat "" (x :: l) = (x ++ String.concat "" l)%string.
Proof.
  destruct l as [|y l].
  - cbn. now rewrite string_app_nil_r.
  - reflexivity.
Qed.

(** The loop of lines 113-116 adds the blocks one after the other. *)
Lemma fold_message_div (msgs : list Message) (html : string) :
  fold_left (fun html msg => (html ++ message_div msg)%string) msgs html
  = (html ++ String.concat "" (map message_div msgs))%string.
Proof.
  revert html. induction msgs as [|m msgs IH]; intros html.
  - cbn. now rewrite string_app_nil_r.
  - cbn [fold_left map]. rewrite IH, concat_empty_cons.
    now rewrite string_app_assoc.
Qed.

(** The four replacements amount to one pass that maps each character. *)
Lemma escape_content_spec (text : string) :
  escape_content text = flat_map_string escape_char text.
Proof.
  unfold escape_content, newline.
  rewrite !replace_char, !flat_map_string_compose.
  apply flat_map_string_ext.
  intros c. destruct c as [[] [] [] [] [] [] [] []]; reflexivity.
Qed.

Lemma markup_free_escape_char (c : ascii) (rest : string) :
  markup_free_from 0 (escape_char c ++ rest) = markup_free_from 0 rest.
Proof.
  unfold escape_char.
  destruct (Ascii.eqb_spec c "&") as [-> | Hamp]; [destruct rest; reflexivity |].
  destruct (Ascii.eqb_spec c "<") as [-> | Hlt]; [destruct rest; reflexivity |].
  destruct (Ascii.eqb_spec c ">") as [-> | Hgt]; [destruct rest; reflexivity |].
  destruct (Ascii.eqb_spec c "010") as [-> | Hnl]; [destruct rest; reflexivity |].
  cbn [append markup_free_from prefix].
  destruct (ascii_dec "&" c) as [E | _]; [congruence |].
  destruct (ascii_dec "<" c) as [E | _]; [congruence |].
  unfold markup_significant.
  apply Ascii.eqb_neq in Hamp, Hlt, Hgt, Hnl.
  now rewrite Hamp, Hlt, Hgt, Hnl.
Qed.

Lemma markup_free_escaped (text : string) :
  markup_free (flat_map_string escape_char text) = true.
Proof.
  unfold markup_free.
  induction text as [|c text IH].
  - reflexivity.
  - cbn [flat_map_string]. now rewrite markup_free_escape_char.
Qed.

(** C8: the document is the header, one block per message in order, and the
    footer; in each block the content appears with every ampersand, "<" and
    ">" replaced by its entity and every newline by a line break, character
    by character, so the text standing for the content holds no ampersand
    outside an entity, no angle bracket outside a line break and no
    newline. *)
Theorem C8_render_escapes_content (msgs : list Message) :
  format_messages_as_html msgs
  = (html_header ++ String.concat "" (map message_div msgs) ++ html_footer)%string
  /\ (forall msg,
        message_div msg =
          ("<div class=" ++ dquote ++ "message "
             ++ (if role msg =? "user" then "user" else "assistant")
             ++ dquote ++ "><strong>" ++ capitalize (role msg) ++ ":</strong><br>"
             ++ flat_map_string escape_char (content msg) ++ "</div>")%string)
  /\ (forall text, escape_content text = flat_map_string escape_char text)
  /\ (forall text, markup_free (escape_content text) = true)
  /\ escape_char "&" = "&amp;"
  /\ escape_char "<" = "&lt;"
  /\ escape_char ">" = "&gt;"
  /\ escape_char "010" = "<br>".
Proof.
  split; [| split; [| split; [| split]]].
  - unfold format_messages_as_html. cbv zeta.
    now rewrite fold_message_div, string_app_assoc.
  - intros msg. unfold message_div. cbv zeta.
    now rewrite escape_content_spec.
  - exact escape_content_spec.
  - intros text. rewrite escape_content_spec. apply markup_free_escaped.
  - repeat split.
Qed.

Lemma save_conversation_button_run (s : SessionState) :
  save_conversation_button s =
    (Ok tt, s,
     [DownloadButton "Save Conversation" (format_messages_as_html (messages s))
        "conversation.html" "text/html"]).
Proof. reflexivity. Qed.

(** C9: rendering equal message lists gives equal documents; the document
    offered for download depends on the stored messages alone, whatever the
    other fields of the session hold, and producing it changes nothing in
    the session. *)
Theorem C9_render_deterministic
  (first second : list Message) (s1 s2 : SessionState) :
  first = second ->
  format_messages_as_html first = format_messages_as_html second
  /\ effects_of (save_conversation_button (set_messages first s1))
     = effects_of (save_conversation_button (set_messages second s2))
  /\ state_of (save_conversation_button (set_messages first s1))
     = set_messages first s1.
Proof.
  intros ->. rewrite !save_conversation_button_run. repeat split.
Qed.

(** ** One interaction with the page *)

Lemma display_messages_run (l : list Message) (s : SessionState) :
  display_messages l s
  = (Ok tt, s, map (fun m => ChatMessage (role m) (content m)) l).
Proof.
  induction l as [|m l IH].
  - reflexivity.
  - cbn [display_messages map]. cbv [bind emit]. now rewrite IH.
Qed.

Lemma set_toggles_same (s : SessionState) :
  set_use_file_search (use_file_search s)
    (set_use_web_search (use_web_search s) s) = s.
Proof. destruct s; reflexivity. Qed.

Lemma runner_calls_app (a b : list Effect) :
  runner_calls (a ++ b) = runner_calls a ++ runner_calls b.
Proof.
  induction a as [|e a IH]; [reflexivity |].
  destruct e; cbn [app runner_calls]; now rewrite IH.
Qed.

Lemma runner_calls_shown (l : list Message) :
  runner_calls (map (fun m => ChatMessage (role m) (content m)) l) = [].
Proof. induction l; [reflexivity | assumption]. Qed.

Lemma runner_calls_warning (b : bool) :
  runner_calls (if b then [SidebarWarning no_tool_warning] else []) = [].
Proof. destruct b; reflexivity. Qed.

Section Run.

Variable vs : string.
Variable R : Agent -> string -> RunOutcome.

(** One execution, handler by handler in the order of the script. *)
Lemma script_body_run (w : Widgets) (s : SessionState) :
  script_body vs R w s =
    let s0 := set_use_file_search (file_search_toggle w)
                (set_use_web_search (web_search_toggle w) s) in
    let warn := if no_tool_selected s0
                then [SidebarWarning no_tool_warning] else [] in
    if clear_clicked w then (RerunRequested, set_messages [] s0, warn)
    else if end_clicked w then
      (RerunRequested, state_of (end_conversation s0), warn)
    else
      let shown := map (fun m => ChatMessage (role m) (content m)) (messages s0) in
      match chat_input_handler vs R (chat_input w) s0 with
      | (Ok _, s1, log) =>
          (Ok tt, s1,
           warn ++ shown ++ log
             ++ [DownloadButton "Save Conversation"
                   (format_messages_as_html (messages s1))
                   "conversation.html" "text/html"])
      | (RerunRequested, s1, log) => (RerunRequested, s1, warn ++ shown ++ log)
      | (Raised e, s1, log) => (Raised e, s1, warn ++ shown ++ log)
      end.
Proof.
  unfold script_body. cbv [bind modify get_state all_messages]. cbv zeta.
  set (s0 := set_use_file_search _ _).
  assert (Hwarn :
    (if no_tool_selected s0 then emit (SidebarWarning no_tool_warning) else ret tt) s0
    = (Ok tt, s0, if no_tool_selected s0
                  then [SidebarWarning no_tool_warning] else [])).
  { destruct (no_tool_selected s0); reflexivity. }
  rewrite Hwarn. clear Hwarn.
  destruct (clear_clicked w).
  - rewrite clear_conversation_run. now rewrite app_nil_r.
  - cbv [ret]. destruct (end_clicked w).
    + rewrite end_conversation_run. cbn [state_of fst snd].
      now rewrite app_nil_r.
    + rewrite display_messages_run.
      destruct (chat_input_handler vs R (chat_input w) s0) as [[[[]| |e] s1] log].
      * rewrite save_conversation_button_run. reflexivity.
      * reflexivity.
      * reflexivity.
Qed.

(** The execution that follows a rerun request has no click and no
    submission to handle: it redraws the page and changes nothing. *)
Lemma script_body_redraw (w : Widgets) (s : SessionState) :
  web_search_toggle w = use_web_search s ->
  file_search_toggle w = use_file_search s ->
  result_of (script_body vs R (without_triggers w) s) = Ok tt
  /\ state_of (script_body vs R (without_triggers w) s) = s
  /\ runner_calls (effects_of (script_body vs R (without_triggers w) s)) = [].
Proof.
  intros Hweb Hfile. rewrite script_body_run.
  cbn [without_triggers web_search_toggle file_search_toggle
         clear_clicked end_clicked chat_input chat_input_handler].
  rewrite Hweb, Hfile, set_toggles_same. cbv [ret]. cbv zeta.
  repeat split.
  cbn [effects_of snd].
  now rewrite !runner_calls_app, runner_calls_shown, runner_calls_warning.
Qed.

(** Clicking Clear Conversation, toggles left as they are. *)
Lemma script_run_clear (w : Widgets) (s : SessionState) :
  clear_clicked w = true ->
  web_search_toggle w = use_web_search s ->
  file_search_toggle w = use_file_search s ->
  result_of (script_run vs R w s) = Ok tt
  /\ state_of (script_run vs R w s) = set_messages [] s.
Proof.
  intros Hclear Hweb Hfile. unfold script_run.
  rewrite (script_body_run w s). cbv zeta.
  rewrite Hclear, Hweb, Hfile, set_toggles_same.
  destruct (script_body_redraw w (set_messages [] s) Hweb Hfile) as (Hr & Hs & _).
  destruct (script_body vs R (without_triggers w) (set_messages [] s))
    as [[r s2] log].
  cbn [result_of state_of fst snd] in *. now subst.
Qed.

(** Clicking End Conversation, toggles left as they are. *)
Lemma script_run_end (w : Widgets) (s : SessionState) :
  clear_clicked w = false ->
  end_clicked w = true ->
  web_search_toggle w = use_web_search s ->
  file_search_toggle w = use_file_search s ->
  result_of (script_run vs R w s) = Ok tt
  /\ state_of (script_run vs R w s) = state_of (end_conversation s).
Proof.
  intros Hclear Hend Hweb Hfile. unfold script_run.
  rewrite (script_body_run w s). cbv zeta.
  rewrite Hclear, Hend, Hweb, Hfile, set_toggles_same.
  destruct (script_body_redraw w (state_of (end_conversation s)) Hweb Hfile)
    as (Hr & Hs & _).
  destruct (script_body vs R (without_triggers w) (state_of (end_conversation s)))
    as [[r s2] log].
  cbn [result_of state_of fst snd] in *. now subst.
Qed.

(** Submitting a question, toggles left as they are: the outcome and the
    session are those of [ask]; an exception of the turn leaves the script
    uncaught. *)
Lemma script_run_question (w : Widgets) (s : SessionState) (c : ascii) (q : string) :
  clear_clicked w = false ->
  end_clicked w = false ->
  chat_input w = Some (String c q) ->
  web_search_toggle w = use_web_search s ->
  file_search_toggle w = use_file_search s ->
  result_of (script_run vs R w s) = result_of (ask vs R (String c q) s)
  /\ state_of (script_run vs R w s) = state_of (ask vs R (String c q) s)
  /\ runner_calls (effects_of (script_run vs R w s))
     = runner_calls (effects_of (ask vs R (String c q) s)).
Proof.
  intros Hclear Hend Hq Hweb Hfile. unfold script_run.
  rewrite (script_body_run w s). cbv zeta.
  rewrite Hclear, Hend, Hq, Hweb, Hfile, set_toggles_same.
  cbn [chat_input_handler truthy].
  destruct (canSend s) eqn:Hsend.
  - rewrite (ask_accepted vs R s _ Hsend). cbv zeta.
    destruct (R _ _) as [a | e]; cbn [result_of state_of effects_of fst snd].
    + repeat split.
      now rewrite !runner_calls_app, runner_calls_shown, runner_calls_warning.
    + repeat split.
      now rewrite !runner_calls_app, runner_calls_shown, runner_calls_warning.
  - rewrite (ask_rejected vs R s _ Hsend).
    cbn [result_of state_of effects_of fst snd]. repeat split.
    now rewrite !runner_calls_app, runner_calls_shown, runner_calls_warning.
Qed.

End Run.

(** ** Stored roles *)

Lemma known_role_snoc (l : list Message) (m : Message) :
  forallb known_role l = true -> known_role m = true ->
  forallb known_role (l ++ [m]) = true.
Proof.
  intros Hl Hm. rewrite forallb_app, Hl. cbn. now rewrite Hm.
Qed.

(** Every handler that stores a message stores it under one of the two
    roles, so the exporter only ever capitalizes "user" and "assistant". *)
Lemma ask_known_roles
  (vs : string) (R : Agent -> string -> RunOutcome) (s : SessionState) (q : string) :
  forallb known_role (messages s) = true ->
  forallb known_role (messages (state_of (ask vs R q s))) = true.
Proof.
  intros Hs. destruct (canSend s) eqn:Hsend.
  - rewrite (ask_accepted vs R s q Hsend). cbv zeta.
    destruct (R _ _); cbn [state_of fst snd messages set_messages];
      repeat apply known_role_snoc; auto.
  - now rewrite (ask_rejected vs R s q Hsend).
Qed.

Lemma end_conversation_known_roles (s : SessionState) :
  forallb known_role (messages s) = true ->
  forallb known_role (messages (state_of (end_conversation s))) = true.
Proof.
  intros Hs. rewrite end_conversation_run. cbn [state_of fst snd messages].
  now apply known_role_snoc.
Qed.

Example capitalize_user : capitalize "user" = "User".
Proof. reflexivity. Qed.

Example capitalize_assistant : capitalize "assistant" = "Assistant".
Proof. reflexivity. Qed.

(** ** The scenarios of the specification, run on the page *)

(** Both toggles off, then a question: the error box, an empty store, no
    request. *)
Example scenario_no_tool :
  let w := {| web_search_toggle := false; file_search_toggle := false;
              clear_clicked := false; end_clicked := false;
              chat_input := Some "test" |} in
  let out := script_run "vs_1" (stub_answers "A1") w initial_state in
  result_of out = Ok tt
  /\ messages (state_of out) = []
  /\ error_boxes (effects_of out) = [no_tool_error]
  /\ runner_calls (effects_of out) = [].
Proof. repeat split. Qed.

(** A question answered "A1". *)
Example scenario_answered :
  messages (state_of (ask "vs_1" (stub_answers "A1") "Q1" initial_state))
  = [user_message "Q1"; assistant_message "A1"].
Proof. reflexivity. Qed.

(** Clearing after four messages. *)
Example scenario_clear_after_four :
  let ops := [Append (user_message "Q1"); Append (assistant_message "A1");
              Append (user_message "Q2"); Append (assistant_message "A2"); Clear] in
  result_of ((store_run ops ;; all_messages) initial_state) = Ok [].
Proof. reflexivity. Qed.

(** A transcript with markup in the content. *)
Example scenario_export :
  message_div (user_message ("a<b & c>d" ++ newline ++ "e"))
  = ("<div class=" ++ dquote ++ "message user" ++ dquote
       ++ "><strong>User:</strong><br>a&lt;b &amp; c&gt;d<br>e</div>")%string.
Proof. reflexivity. Qed.

(** ** The theorems at concrete inputs *)

Lemma C2_gateway_failure_witness :
  let out := ask "vs_1" (stub_fails "quota exceeded") "Q1" initial_state in
  canSend initial_state = true
  /\ stub_fails "quota exceeded" (research_assistant "vs_1" initial_state)
       (build_prompt (build_context [user_message "Q1"]) "Q1")
     = RunFails "quota exceeded"
  /\ result_of out = Raised "quota exceeded"
  /\ state_of out = set_messages (messages initial_state ++ [user_message "Q1"]) initial_state
  /\ messages (state_of out) = messages initial_state ++ [user_message "Q1"]
  /\ effects_of out =
       [ChatMessage "user" "Q1";
        RunnerRun (research_assistant "vs_1" initial_state)
          (build_prompt (build_context [user_message "Q1"]) "Q1")].
Proof.
  split; [reflexivity | split; [reflexivity |]].
  exact (C2_gateway_failure "vs_1" (stub_fails "quota exceeded") initial_state "Q1"
           (research_assistant "vs_1" initial_state)
           (build_prompt (build_context [user_message "Q1"]) "Q1")
           "quota exceeded"
           eq_refl (or_introl eq_refl) eq_refl).
Defined.

Lemma C4_successful_turn_witness :
  let out := ask "vs_1" (stub_answers "A1") "Q1" initial_state in
  canSend initial_state = true
  /\ stub_answers "A1" (research_assistant "vs_1" initial_state)
       (build_prompt (build_context [user_message "Q1"]) "Q1")
     = FinalOutput "A1"
  /\ result_of out = Ok tt
  /\ messages (state_of out)
     = messages initial_state ++ [{| role := "user"; content := "Q1" |};
                                  {| role := "assistant"; content := "A1" |}].
Proof.
  split; [reflexivity | split; [reflexivity |]].
  exact (C4_successful_turn "vs_1" (stub_answers "A1") initial_state "Q1"
           (research_assistant "vs_1" initial_state)
           (build_prompt (build_context [user_message "Q1"]) "Q1")
           "A1"
           eq_refl (or_introl eq_refl) eq_refl).
Defined.

(** C5, as the specification words it, fails on a fresh session: with nothing stored
    before the question "Q1", the prompt built from the earlier messages alone
    is not the prompt that is sent; the one sent carries the line
    "user: Q1". *)
Lemma C5_question_is_a_history_line :
  map snd (runner_calls
             (effects_of (ask "vs_1" (stub_answers "A1") "Q1" initial_state)))
  = [("Context of our conversation:" ++ newline ++ "user: Q1" ++ newline ++ newline
        ++ "Current question: Q1")%string]
  /\ map snd (runner_calls
                (effects_of (ask "vs_1" (stub_answers "A1") "Q1" initial_state)))
     <> [build_prompt (build_context (messages initial_state)) "Q1"].
Proof.
  split.
  - reflexivity.
  - vm_compute. intros H. discriminate H.
Qed.

Lemma C5_context_includes_question_witness :
  canSend initial_state = true
  /\ runner_calls (effects_of (ask "vs_1" (stub_answers "A1") "Q1" initial_state)) =
    [(research_assistant "vs_1" initial_state,
      build_prompt (build_context (messages initial_state ++ [user_message "Q1"])) "Q1")]
  /\ build_context (messages initial_state ++ [user_message "Q1"]) =
       match messages initial_state with
       | [] => ("user: " ++ "Q1")%string
       | _ :: _ =>
           (build_context (messages initial_state) ++ newline ++ "user: " ++ "Q1")%string
       end
  /\ (forall history,
        build_context history = String.concat newline (map history_line history))
  /\ (forall context,
        build_prompt context "Q1" =
          ("Context of our conversation:" ++ newline ++ context ++ newline ++ newline
             ++ "Current question: " ++ "Q1")%string).
Proof.
  split; [reflexivity |].
  exact (C5_context_includes_question "vs_1" (stub_answers "A1") initial_state "Q1"
           eq_refl).
Defined.

Lemma C7_inactive_session_accepts_input_witness :
  let s := state_of (end_conversation initial_state) in
  let off := ask "vs_1" (stub_answers "A1") "Q1" s in
  let on := ask "vs_1" (stub_answers "A1") "Q1" (set_conversation_active true s) in
  conversation_active s = false
  /\ canSend s = true
  /\ result_of off = result_of on
  /\ effects_of off = effects_of on
  /\ messages (state_of off) = messages (state_of on)
  /\ conversation_active (state_of off) = false
  /\ exists agent prompt,
      runner_calls (effects_of off) = [(agent, prompt)]
      /\ forall a,
          stub_answers "A1" agent prompt = FinalOutput a ->
          result_of off = Ok tt
          /\ messages (state_of off)
             = messages s ++ [user_message "Q1"; assistant_message a].
Proof.
  split; [reflexivity | split; [reflexivity |]].
  exact (C7_inactive_session_accepts_input "vs_1" (stub_answers "A1")
           (state_of (end_conversation initial_state)) "Q1" eq_refl eq_refl).
Defined.

Lemma C9_render_deterministic_witness :
  let transcript := [user_message "a<b"; assistant_message "c&d"] in
  let other := {| messages := [];
                  use_web_search := false;
                  use_file_search := true;
                  conversation_active := false |} in
  transcript = transcript
  /\ format_messages_as_html transcript = format_messages_as_html transcript
  /\ effects_of (save_conversation_button (set_messages transcript initial_state))
     = effects_of (save_conversation_button (set_messages transcript other))
  /\ state_of (save_conversation_button (set_messages transcript initial_state))
     = set_messages transcript initial_state.
Proof.
  split; [reflexivity |].
  exact (C9_render_deterministic
           [user_message "a<b"; assistant_message "c&d"]
           [user_message "a<b"; assistant_message "c&d"]
           initial_state
           {| messages := [];
              use_web_search := false;
              use_file_search := true;
              conversation_active := false |}
           eq_refl).
Defined.

(** ** Interactions in full *)

Section Interactions.

Variable vs : string.
Variable R : Agent -> string -> RunOutcome.

(** The handler of the chat box never asks for a rerun. *)
Lemma chat_input_handler_outcome (i : option string) (s : SessionState) :
  chat_input_handler vs R i s = (Ok tt, s, [])
  \/ exists c q, i = Some (String c q)
       /\ chat_input_handler vs R i s = ask vs R (String c q) s.
Proof.
  destruct i as [[|c q]|].
  - left. reflexivity.
  - right. exists c, q. split; reflexivity.
  - left. reflexivity.
Qed.

(** [ask] ends normally or in an exception, keeps the flags, and only adds
    to the stored messages: nothing, the question, or the question and its
    answer. *)
Lemma ask_frame (s : SessionState) (q : string) :
  let out := ask vs R q s in
  (result_of out = Ok tt \/ exists e, result_of out = Raised e)
  /\ use_web_search (state_of out) = use_web_search s
  /\ use_file_search (state_of out) = use_file_search s
  /\ conversation_active (state_of out) = conversation_active s
  /\ exists added,
      messages (state_of out) = messages s ++ added
      /\ length added <= 2
      /\ forallb known_role added = true.
Proof.
  intros out. subst out.
  destruct (canSend s) eqn:Hsend.
  - rewrite (ask_accepted vs R s q Hsend). cbv zeta.
    destruct (R _ _) as [a | e];
      cbn [result_of state_of fst snd messages set_messages use_web_search
             use_file_search conversation_active].
    + split; [left; reflexivity |]. repeat split.
      exists [user_message q; assistant_message a].
      rewrite <- app_assoc. repeat split. cbn. lia.
    + split; [right; now exists e |]. repeat split.
      exists [user_message q]. repeat split. cbn. lia.
  - rewrite (ask_rejected vs R s q Hsend).
    split; [left; reflexivity |]. repeat split.
    exists []. rewrite app_nil_r. repeat split. cbn. lia.
Qed.

Lemma chat_input_handler_frame (i : option string) (s : SessionState) :
  let out := chat_input_handler vs R i s in
  (result_of out = Ok tt \/ exists e, result_of out = Raised e)
  /\ use_web_search (state_of out) = use_web_search s
  /\ use_file_search (state_of out) = use_file_search s
  /\ conversation_active (state_of out) = conversation_active s
  /\ exists added,
      messages (state_of out) = messages s ++ added
      /\ length added <= 2
      /\ forallb known_role added = true.
Proof.
  intros out. subst out.
  destruct (chat_input_handler_outcome i s) as [-> | (c & q & _ & ->)].
  - split; [left; reflexivity |]. repeat split.
    exists []. rewrite app_nil_r. repeat split. cbn. lia.
  - apply ask_frame.
Qed.

(** The execution after a rerun request, written out. *)
Lemma script_body_redraw_run (w : Widgets) (s : SessionState) :
  web_search_toggle w = use_web_search s ->
  file_search_toggle w = use_file_search s ->
  script_body vs R (without_triggers w) s =
    (Ok tt, s,
     (if no_tool_selected s then [SidebarWarning no_tool_warning] else [])
       ++ map (fun m => ChatMessage (role m) (content m)) (messages s)
       ++ [DownloadButton "Save Conversation"
             (format_messages_as_html (messages s))
             "conversation.html" "text/html"]).
Proof.
  intros Hweb Hfile. rewrite script_body_run.
  cbn [without_triggers web_search_toggle file_search_toggle
         clear_clicked end_clicked chat_input chat_input_handler].
  rewrite Hweb, Hfile, set_toggles_same. reflexivity.
Qed.

(** An interaction, written out: the toggles are stored first; Clear and
    End change the store and the page is drawn again; otherwise the chat box
    is handled and the download button closes the page unless the turn
    raised. *)
Lemma script_run_run (w : Widgets) (s : SessionState) :
  script_run vs R w s =
    let s0 := set_use_file_search (file_search_toggle w)
                (set_use_web_search (web_search_toggle w) s) in
    let warn := if no_tool_selected s0
                then [SidebarWarning no_tool_warning] else [] in
    let shown := fun s1 : SessionState =>
      map (fun m => ChatMessage (role m) (content m)) (messages s1) in
    let button := fun s1 : SessionState =>
      [DownloadButton "Save Conversation"
         (format_messages_as_html (messages s1)) "conversation.html" "text/html"] in
    if clear_clicked w then
      (Ok tt, set_messages [] s0,
       warn ++ warn ++ shown (set_messages [] s0) ++ button (set_messages [] s0))
    else if end_clicked w then
      (Ok tt, state_of (end_conversation s0),
       warn ++ warn ++ shown (state_of (end_conversation s0))
         ++ button (state_of (end_conversation s0)))
    else
      match chat_input_handler vs R (chat_input w) s0 with
      | (Raised e, s1, log) => (Raised e, s1, warn ++ shown s0 ++ log)
      | (_, s1, log) => (Ok tt, s1, warn ++ shown s0 ++ log ++ button s1)
      end.
Proof.
  unfold script_run. rewrite (script_body_run vs R w s). cbv zeta.
  set (s0 := set_use_file_search _ _).
  destruct (clear_clicked w).
  - rewrite (script_body_redraw_run w (set_messages [] s0)) by reflexivity.
    reflexivity.
  - destruct (end_clicked w).
    + rewrite (script_body_redraw_run w (state_of (end_conversation s0)))
        by reflexivity.
      reflexivity.
    + pose proof (chat_input_handler_frame (chat_input w) s0) as Hframe.
      cbv zeta in Hframe. destruct Hframe as (Hres & _).
      destruct (chat_input_handler vs R (chat_input w) s0) as [[r s1] log].
      cbn [result_of fst] in Hres.
      destruct Hres as [-> | (e & ->)]; reflexivity.
Qed.

(** What an interaction leaves in the session. *)
Lemma script_run_frame (w : Widgets) (s : SessionState) :
  let out := script_run vs R w s in
  use_web_search (state_of out) = web_search_toggle w
  /\ use_file_search (state_of out) = file_search_toggle w
  /\ conversation_active (state_of out)
     = (if clear_clicked w then conversation_active s
        else if end_clicked w then false
        else conversation_active s)
  /\ (clear_clicked w = true -> messages (state_of out) = [])
  /\ (clear_clicked w = false ->
      exists added,
        messages (state_of out) = messages s ++ added
        /\ length added <= 2
        /\ forallb known_role added = true).
Proof.
  intros out. subst out. rewrite script_run_run. cbv zeta.
  set (s0 := set_use_file_search _ _).
  destruct (clear_clicked w).
  - repeat split. discriminate.
  - destruct (end_clicked w).
    + rewrite end_conversation_run. repeat split; try discriminate.
      intros _. exists [assistant_message end_notice]. repeat split. cbn. lia.
    + pose proof (chat_input_handler_frame (chat_input w) s0) as Hframe.
      cbv zeta in Hframe.
      destruct Hframe as (_ & Hweb & Hfile & Hact & added & Hmsgs & Hlen & Hroles).
      destruct (chat_input_handler vs R (chat_input w) s0) as [[r s1] log].
      cbn [state_of fst snd] in *.
      assert (Hout : state_of (match r with
                               | Raised e => (Raised e, s1, ((if no_tool_selected s0
                                     then [SidebarWarning no_tool_warning] else [])
                                     ++ map (fun m => ChatMessage (role m) (content m))
                                          (messages s0) ++ log))
                               | _ => (Ok tt, s1, ((if no_tool_selected s0
                                     then [SidebarWarning no_tool_warning] else [])
                                     ++ map (fun m => ChatMessage (role m) (content m))
                                          (messages s0) ++ log
                                     ++ [DownloadButton "Save Conversation"
                                           (format_messages_as_html (messages s1))
                                           "conversation.html" "text/html"]))
                               end) = s1).
      { destruct r; reflexivity. }
      rewrite Hout.
      repeat split; try assumption; try discriminate.
      intros _. exists added. repeat split; assumption.
Qed.

(** The requests of an interaction are those of the chat box handler, and
    there are none when a button was clicked. *)
Lemma script_run_calls (w : Widgets) (s : SessionState) :
  runner_calls (effects_of (script_run vs R w s)) =
    if clear_clicked w then []
    else if end_clicked w then []
    else runner_calls
           (effects_of
              (chat_input_handler vs R (chat_input w)
                 (set_use_file_search (file_search_toggle w)
                    (set_use_web_search (web_search_toggle w) s)))).
Proof.
  rewrite script_run_run. cbv zeta.
  set (s0 := set_use_file_search _ _).
  destruct (clear_clicked w).
  - cbn [effects_of snd].
    now rewrite !runner_calls_app, runner_calls_shown, runner_calls_warning.
  - destruct (end_clicked w).
    + cbn [effects_of snd].
      now rewrite !runner_calls_app, runner_calls_shown, runner_calls_warning.
    + destruct (chat_input_handler vs R (chat_input w) s0) as [[r s1] log].
      destruct r; cbn [effects_of snd];
        rewrite !runner_calls_app, runner_calls_shown, runner_calls_warning;
        cbn [runner_calls app]; now rewrite ?app_nil_r.
Qed.

(** The requests of the chat box handler: one, for a non-empty question
    with a tool selected; none otherwise. *)
Lemma chat_input_handler_calls (i : option string) (s : SessionState) :
  runner_calls (effects_of (chat_input_handler vs R i s)) =
    match i with
    | Some (String c q) =>
        if canSend s
        then [(research_assistant vs s,
               build_prompt (build_context (messages s ++ [user_message (String c q)]))
                 (String c q))]
        else []
    | _ => []
    end.
Proof.
  destruct i as [[|c q]|]; try reflexivity.
  cbn [chat_input_handler truthy].
  destruct (canSend s) eqn:Hsend.
  - apply ask_accepted_calls. exact Hsend.
  - now rewrite (ask_rejected vs R s _ Hsend).
Qed.

End Interactions.

(** ** Requests sent during an interaction *)

(** X1: whatever the widgets report and whatever is stored, a request that
    reaches the hosted runtime carries the agent named "Research Assistant"
    with the fixed instructions and a tool list that is never empty: the web
    search tool exactly when the web toggle is on, and the file search tool
    exactly when the file toggle is on, limited to 3 results on the configured
    vector store. *)
Theorem X1_request_agent_matches_toggles
  (vs : string) (R : Agent -> string -> RunOutcome)
  (w : Widgets) (s : SessionState) (agent : Agent) (prompt : string) :
  In (agent, prompt) (runner_calls (effects_of (script_run vs R w s))) ->
  tools agent <> []
  /\ (In WebSearchTool (tools agent) <-> web_search_toggle w = true)
  /\ (forall n ids,
        In (FileSearchTool n ids) (tools agent)
        <-> file_search_toggle w = true /\ n = 3 /\ ids = [vs])
  /\ name agent = "Research Assistant"
  /\ instructions agent = agent_instructions.
Proof.
  intros Hcall. rewrite script_run_calls in Hcall.
  destruct (clear_clicked w); [contradiction |].
  destruct (end_clicked w); [contradiction |].
  rewrite chat_input_handler_calls in Hcall.
  destruct (chat_input w) as [[|c q]|]; try contradiction.
  destruct (canSend _) eqn:Hsend; [| contradiction].
  destruct Hcall as [Hcall | []]. injection Hcall as <- _.
  unfold canSend, no_tool_selected in Hsend.
  cbn [use_web_search use_file_search set_use_web_search set_use_file_search] in Hsend.
  unfold research_assistant, selected_tools.
  cbn [tools name instructions use_web_search use_file_search
         set_use_web_search set_use_file_search].
  destruct (web_search_toggle w), (file_search_toggle w); try discriminate;
    cbn [app In]; (split; [discriminate |]);
    (split; [intuition (try discriminate; try congruence) |]);
    (split; [| split; reflexivity]);
    intros n ids; split;
    intuition (try discriminate; try congruence).
Qed.

(** X2: an interaction sends at most one request, and none at all when a
    button was clicked, when both toggles are off, or when nothing (or the
    empty text) was submitted: there is no retry and no second attempt. *)
Theorem X2_at_most_one_request
  (vs : string) (R : Agent -> string -> RunOutcome) (w : Widgets) (s : SessionState) :
  length (runner_calls (effects_of (script_run vs R w s))) <= 1
  /\ (clear_clicked w = true
      \/ end_clicked w = true
      \/ (web_search_toggle w = false /\ file_search_toggle w = false)
      \/ chat_input w = None
      \/ chat_input w = Some "" ->
      runner_calls (effects_of (script_run vs R w s)) = []).
Proof.
  rewrite script_run_calls, chat_input_handler_calls.
  unfold canSend, no_tool_selected.
  cbn [use_web_search use_file_search set_use_web_search set_use_file_search].
  split.
  - destruct (clear_clicked w), (end_clicked w), (chat_input w) as [[|c q]|];
      cbn [length]; try lia.
    destruct (negb _); cbn [length]; lia.
  - intros [-> | [-> | [[-> ->] | [-> | ->]]]];
      destruct (clear_clicked w), (end_clicked w); try reflexivity;
      destruct (chat_input w) as [[|c q]|]; reflexivity.
Qed.

(** X13: in the turn after an answered one, the context sent is the context
    of the answered turn followed by a line for its answer and a line for the
    new question; the agent is unchanged. *)
Theorem X13_next_turn_extends_context
  (vs : string) (R1 R2 : Agent -> string -> RunOutcome)
  (s : SessionState) (q1 q2 a1 : string) :
  canSend s = true ->
  R1 (research_assistant vs s)
     (build_prompt (build_context (messages s ++ [user_message q1])) q1)
  = FinalOutput a1 ->
  runner_calls (effects_of (ask vs R2 q2 (state_of (ask vs R1 q1 s)))) =
    [(research_assistant vs s,
      build_prompt
        (build_context (messages s ++ [user_message q1])
           ++ newline ++ "assistant: " ++ a1
           ++ newline ++ "user: " ++ q2)%string
        q2)].
Proof.
  intros Hsend Hans.
  rewrite (ask_accepted vs R1 s q1 Hsend). cbv zeta.
  cbn [messages set_messages]. rewrite Hans. cbn [state_of fst snd].
  rewrite ask_accepted_calls by exact Hsend.
  cbn [messages set_messages].
  change (research_assistant vs
            (set_messages ((messages s ++ [user_message q1]) ++ [assistant_message a1])
               (set_messages (messages s ++ [user_message q1]) s)))
    with (research_assistant vs s).
  do 3 f_equal.
  rewrite build_context_snoc.
  destruct ((messages s ++ [user_message q1]) ++ [assistant_message a1])
    as [|m0 l0] eqn:Hl.
  { destruct (messages s); discriminate Hl. }
  rewrite <- Hl. clear Hl m0 l0.
  rewrite build_context_snoc.
  destruct (messages s ++ [user_message q1]) as [|m1 l1] eqn:Hl.
  { destruct (messages s); discriminate Hl. }
  unfold history_line, assistant_message, user_message. cbn [role content].
  now rewrite !string_app_assoc.
Qed.

(** ** What a session keeps over any number of interactions *)

(** X3: once the conversation has been ended the active flag stays off:
    no question, click or toggle of any later interaction turns it on again,
    whatever the hosted runtime replies. *)
Theorem X3_ended_stays_ended
  (vs : string) (steps : list Interaction) (s : SessionState) :
  conversation_active s = false ->
  conversation_active (session_run vs steps s) = false.
Proof.
  revert s. induction steps as [|step rest IH]; intros s Hoff.
  - exact Hoff.
  - cbn [session_run]. apply IH.
    destruct (script_run_frame vs (runtime step) (widgets step) s)
      as (_ & _ & Hact & _).
    rewrite Hact, Hoff.
    destruct (clear_clicked _); [reflexivity |].
    destruct (end_clicked _); reflexivity.
Qed.

(** X4: every message a session stores has the role "user" or "assistant",
    after any number of interactions, when that held at the start (as it does
    for the empty store of a new session). *)
Theorem X4_stored_roles_known
  (vs : string) (steps : list Interaction) (s : SessionState) :
  forallb known_role (messages s) = true ->
  forallb known_role (messages (session_run vs steps s)) = true.
Proof.
  revert s. induction steps as [|step rest IH]; intros s Hroles.
  - exact Hroles.
  - cbn [session_run]. apply IH.
    destruct (script_run_frame vs (runtime step) (widgets step) s)
      as (_ & _ & _ & Hclear & Hkeep).
    destruct (clear_clicked (widgets step)).
    + now rewrite Hclear.
    + destruct (Hkeep eq_refl) as (added & -> & _ & Hadded).
      now rewrite forallb_app, Hroles, Hadded.
Qed.

(** X5: an interaction without a click on Clear Conversation never drops or
    rewrites a stored message: the store afterwards is the store before
    followed by at most two new messages. *)
Theorem X5_history_only_grows
  (vs : string) (R : Agent -> string -> RunOutcome) (w : Widgets) (s : SessionState) :
  clear_clicked w = false ->
  exists added,
    messages (state_of (script_run vs R w s)) = messages s ++ added
    /\ length added <= 2.
Proof.
  intros Hclear.
  destruct (script_run_frame vs R w s) as (_ & _ & _ & _ & Hkeep).
  destruct (Hkeep Hclear) as (added & Hmsgs & Hlen & _).
  exists added. split; assumption.
Qed.

(** X6: after an interaction the two stored tool flags are the positions of
    the two checkboxes, whatever they were before and whatever else happened
    in the interaction. *)
Theorem X6_flags_follow_toggles
  (vs : string) (R : Agent -> string -> RunOutcome) (w : Widgets) (s : SessionState) :
  use_web_search (state_of (script_run vs R w s)) = web_search_toggle w
  /\ use_file_search (state_of (script_run vs R w s)) = file_search_toggle w.
Proof.
  destruct (script_run_frame vs R w s) as (Hweb & Hfile & _).
  split; assumption.
Qed.

(** ** The page after an interaction *)

Lemma download_buttons_app (a b : list Effect) :
  download_buttons (a ++ b) = download_buttons a ++ download_buttons b.
Proof.
  induction a as [|e a IH]; [reflexivity |].
  destruct e; cbn [app download_buttons]; now rewrite IH.
Qed.

Lemma download_buttons_shown (l : list Message) :
  download_buttons (map (fun m => ChatMessage (role m) (content m)) l) = [].
Proof. induction l; [reflexivity | assumption]. Qed.

Lemma download_buttons_warning (b : bool) :
  download_buttons (if b then [SidebarWarning no_tool_warning] else []) = [].
Proof. destruct b; reflexivity. Qed.

Lemma error_boxes_app (a b : list Effect) :
  error_boxes (a ++ b) = error_boxes a ++ error_boxes b.
Proof.
  induction a as [|e a IH]; [reflexivity |].
  destruct e; cbn [app error_boxes]; now rewrite IH.
Qed.

Lemma error_boxes_shown (l : list Message) :
  error_boxes (map (fun m => ChatMessage (role m) (content m)) l) = [].
Proof. induction l; [reflexivity | assumption]. Qed.

Lemma error_boxes_warning (b : bool) :
  error_boxes (if b then [SidebarWarning no_tool_warning] else []) = [].
Proof. destruct b; reflexivity. Qed.

Lemma sidebar_warnings_app (a b : list Effect) :
  sidebar_warnings (a ++ b) = sidebar_warnings a ++ sidebar_warnings b.
Proof.
  induction a as [|e a IH]; [reflexivity |].
  destruct e; cbn [app sidebar_warnings]; now rewrite IH.
Qed.

Lemma sidebar_warnings_shown (l : list Message) :
  sidebar_warnings (map (fun m => ChatMessage (role m) (content m)) l) = [].
Proof. induction l; [reflexivity | assumption]. Qed.

(** The chat box handler shows the error box exactly when it rejects, and
    never draws the download button. *)
Lemma chat_input_handler_page
  (vs : string) (R : Agent -> string -> RunOutcome)
  (i : option string) (s : SessionState) :
  let out := chat_input_handler vs R i s in
  download_buttons (effects_of out) = []
  /\ error_boxes (effects_of out) =
       match i with
       | Some (String _ _) => if canSend s then [] else [no_tool_error]
       | _ => []
       end.
Proof.
  intros out. subst out.
  destruct i as [[|c q]|]; try (split; reflexivity).
  cbn [chat_input_handler truthy].
  destruct (canSend s) eqn:Hsend.
  - rewrite (ask_accepted vs R s _ Hsend). cbv zeta.
    destruct (R _ _); split; reflexivity.
  - rewrite (ask_rejected vs R s _ Hsend). split; reflexivity.
Qed.

(** X7: an interaction ends normally or in an exception, never in a pending
    rerun.  When it ends normally the page offers exactly one document for
    download, rendered from the messages stored at the end of the interaction
    (the answer of the turn or the closing message included, nothing after a
    clear); when the turn raised, that execution offers none. *)
Theorem X7_download_is_current
  (vs : string) (R : Agent -> string -> RunOutcome) (w : Widgets) (s : SessionState) :
  let out := script_run vs R w s in
  download_buttons (effects_of out) =
    match result_of out with
    | Ok _ => [format_messages_as_html (messages (state_of out))]
    | RerunRequested => []
    | Raised _ => []
    end
  /\ result_of out <> RerunRequested.
Proof.
  intros out. subst out. rewrite script_run_run. cbv zeta.
  set (s0 := set_use_file_search _ _).
  destruct (clear_clicked w).
  - cbn [effects_of result_of state_of fst snd].
    rewrite !download_buttons_app, download_buttons_shown, download_buttons_warning.
    split; [reflexivity | discriminate].
  - destruct (end_clicked w).
    + cbn [effects_of result_of state_of fst snd].
      rewrite !download_buttons_app, download_buttons_shown, download_buttons_warning.
      split; [reflexivity | discriminate].
    + destruct (chat_input_handler_page vs R (chat_input w) s0) as (Hnone & _).
      destruct (chat_input_handler vs R (chat_input w) s0) as [[r s1] log].
      cbn [effects_of snd] in Hnone.
      destruct r; cbn [effects_of result_of state_of fst snd];
        rewrite !download_buttons_app, download_buttons_shown,
          download_buttons_warning, Hnone;
        (split; [reflexivity | discriminate]).
Qed.

(** X8: an execution with no click and nothing submitted, or the empty text
    submitted, completes and leaves the stored messages and the active flag
    as they were; it sends no request and shows no error box. *)
Theorem X8_empty_submission_ignored
  (vs : string) (R : Agent -> string -> RunOutcome) (w : Widgets) (s : SessionState) :
  clear_clicked w = false ->
  end_clicked w = false ->
  chat_input w = None \/ chat_input w = Some "" ->
  let out := script_run vs R w s in
  result_of out = Ok tt
  /\ messages (state_of out) = messages s
  /\ conversation_active (state_of out) = conversation_active s
  /\ runner_calls (effects_of out) = []
  /\ error_boxes (effects_of out) = [].
Proof.
  intros Hclear Hend Hinput out.
  assert (Hcalls : runner_calls (effects_of out) = []).
  { subst out. rewrite script_run_calls, Hclear, Hend, chat_input_handler_calls.
    destruct Hinput as [-> | ->]; reflexivity. }
  subst out. rewrite script_run_run in *. cbv zeta in *.
  rewrite Hclear, Hend in *.
  assert (Hidle : forall s0, chat_input_handler vs R (chat_input w) s0 = (Ok tt, s0, [])).
  { intros s0. destruct Hinput as [-> | ->]; reflexivity. }
  rewrite Hidle in *.
  cbn [result_of state_of effects_of fst snd messages conversation_active
         set_use_file_search set_use_web_search] in *.
  repeat split; try assumption.
  rewrite !error_boxes_app, error_boxes_shown, error_boxes_warning. reflexivity.
Qed.

(** X9: an error box is shown only for a question submitted with both
    toggles off; the sidebar then shows its warning too, the stored messages
    are untouched and nothing is sent. *)
Theorem X9_rejection_shows_both_notices
  (vs : string) (R : Agent -> string -> RunOutcome) (w : Widgets) (s : SessionState) :
  error_boxes (effects_of (script_run vs R w s)) <> [] ->
  let out := script_run vs R w s in
  error_boxes (effects_of out) = [no_tool_error]
  /\ sidebar_warnings (effects_of out) = [no_tool_warning]
  /\ web_search_toggle w = false
  /\ file_search_toggle w = false
  /\ messages (state_of out) = messages s
  /\ runner_calls (effects_of out) = []
  /\ result_of out = Ok tt.
Proof.
  intros Hbox out.
  assert (Hcalls := script_run_calls vs R w s).
  fold out in Hcalls. revert Hcalls Hbox. subst out.
  rewrite script_run_run. cbv zeta.
  set (s0 := set_use_file_search _ _).
  destruct (clear_clicked w).
  { intros _ Hbox. exfalso. apply Hbox. cbn [effects_of snd].
    now rewrite !error_boxes_app, error_boxes_shown, error_boxes_warning. }
  destruct (end_clicked w).
  { intros _ Hbox. exfalso. apply Hbox. cbn [effects_of snd].
    now rewrite !error_boxes_app, error_boxes_shown, error_boxes_warning. }
  rewrite chat_input_handler_calls.
  destruct (chat_input_handler_page vs R (chat_input w) s0) as (_ & Hboxes).
  destruct (chat_input w) as [[|c q]|].
  - intros _ Hbox. exfalso. apply Hbox. cbn [chat_input_handler truthy ret].
    cbn [effects_of snd].
    now rewrite !error_boxes_app, error_boxes_shown, error_boxes_warning.
  - destruct (canSend s0) eqn:Hsend.
    + intros _ Hbox. exfalso. apply Hbox.
      destruct (chat_input_handler vs R (Some (String c q)) s0) as [[r s1] log].
      cbn [effects_of snd] in Hboxes.
      destruct r; cbn [effects_of snd];
        rewrite !error_boxes_app, error_boxes_shown, error_boxes_warning, Hboxes;
        reflexivity.
    + intros Hcalls _. cbn [chat_input_handler truthy] in *.
      rewrite (ask_rejected vs R s0 _ Hsend) in *.
      assert (Hnone : no_tool_selected s0 = true).
      { unfold canSend in Hsend. now apply negb_false_iff in Hsend. }
      rewrite Hnone in *.
      cbn [effects_of result_of state_of fst snd] in *.
      rewrite !error_boxes_app, error_boxes_shown.
      rewrite !sidebar_warnings_app, sidebar_warnings_shown.
      unfold no_tool_selected in Hnone. apply andb_true_iff in Hnone.
      destruct Hnone as (Hweb & Hfile).
      apply negb_true_iff in Hweb, Hfile.
      cbn [use_web_search use_file_search set_use_web_search set_use_file_search]
        in Hweb, Hfile.
      repeat split; try assumption; reflexivity.
  - intros _ Hbox. exfalso. apply Hbox. cbn [chat_input_handler ret].
    cbn [effects_of snd].
    now rewrite !error_boxes_app, error_boxes_shown, error_boxes_warning.
Qed.

(** ** Start-up configuration *)

Lemma bind_ret {A B : Type} (a : A) (k : A -> Script B) (s : SessionState) :
  bind (ret a) k s = k a s.
Proof.
  unfold bind, ret. destruct (k a s) as [[r s2] log]. reflexivity.
Qed.

Lemma page_body_configured
  (environ : Environ) (R : Agent -> string -> RunOutcome) (w : Widgets)
  (s : SessionState) (key id : string) :
  environ "OPENAI_API_KEY" = Some key ->
  environ "vector_store_id" = Some id ->
  page_body environ R w s = script_body id R w s.
Proof.
  intros Hkey Hid. unfold page_body, environ_get.
  rewrite Hkey, bind_ret, Hid, bind_ret. reflexivity.
Qed.

(** X10: the two environment variables are read before anything else.  When
    OPENAI_API_KEY is missing, or else when vector_store_id is missing, the
    execution ends in the KeyError for that key with the session untouched,
    nothing shown and nothing sent; when both are present the page runs with
    the configured vector store, and the value of the key is not used by the
    script itself. *)
Theorem X10_missing_configuration_is_fatal
  (environ : Environ) (R : Agent -> string -> RunOutcome) (w : Widgets)
  (s : SessionState) :
  page_run environ R w s =
    match environ "OPENAI_API_KEY" with
    | None => (Raised "OPENAI_API_KEY", s, [])
    | Some _ =>
        match environ "vector_store_id" with
        | None => (Raised "vector_store_id", s, [])
        | Some id => script_run id R w s
        end
    end.
Proof.
  unfold page_run.
  destruct (environ "OPENAI_API_KEY") as [key|] eqn:Hkey.
  - destruct (environ "vector_store_id") as [id|] eqn:Hid.
    + rewrite (page_body_configured environ R w s key id Hkey Hid).
      unfold script_run.
      destruct (script_body id R w s) as [[r s1] t1].
      destruct r; try reflexivity.
      now rewrite (page_body_configured environ R (without_triggers w) s1 key id Hkey Hid).
    + unfold page_body, environ_get. rewrite Hkey, bind_ret, Hid. reflexivity.
  - unfold page_body, environ_get. rewrite Hkey. reflexivity.
Qed.

(** ** Escaping, continued *)

Lemma escape_char_cases (c : ascii) :
  (c = "&"%char /\ escape_char c = "&amp;")
  \/ (c = "<"%char /\ escape_char c = "&lt;")
  \/ (c = ">"%char /\ escape_char c = "&gt;")
  \/ (c = "010"%char /\ escape_char c = "<br>")
  \/ (c <> "&"%char /\ c <> "<"%char /\ escape_char c = String c "").
Proof.
  unfold escape_char.
  destruct (Ascii.eqb_spec c "&"); [now left |].
  destruct (Ascii.eqb_spec c "<"); [now right; left |].
  destruct (Ascii.eqb_spec c ">"); [now right; right; left |].
  destruct (Ascii.eqb_spec c "010"); [now right; right; right; left |].
  now right; right; right; right.
Qed.

(** The text of a character decides the character: the five shapes do not
    overlap at the front. *)
Lemma escape_char_head (c1 c2 : ascii) (r1 r2 : string) :
  (escape_char c1 ++ r1)%string = (escape_char c2 ++ r2)%string ->
  c1 = c2 /\ r1 = r2.
Proof.
  destruct (escape_char_cases c1)
    as [(-> & ->) | [(-> & ->) | [(-> & ->) | [(-> & ->) | (Ha1 & Hl1 & ->)]]]];
    destruct (escape_char_cases c2)
      as [(-> & ->) | [(-> & ->) | [(-> & ->) | [(-> & ->) | (Ha2 & Hl2 & ->)]]]];
    cbn [append]; intros H; try discriminate H;
    try (injection H as H; split; [reflexivity | exact H]);
    try (injection H as H1 H2; subst; split; [reflexivity | reflexivity]);
    try (injection H as H1 H2; congruence).
Qed.

(** X11: escaping loses nothing: two contents with the same escaped text are
    the same content, so the content of a message can be read back from its
    block of the exported document. *)
Theorem X11_escape_content_injective (a b : string) :
  escape_content a = escape_content b -> a = b.
Proof.
  rewrite !escape_content_spec.
  revert b. induction a as [|c1 a IH]; intros [|c2 b]; cbn [flat_map_string].
  - reflexivity.
  - intros H. exfalso.
    destruct (escape_char_cases c2)
      as [(_ & E) | [(_ & E) | [(_ & E) | [(_ & E) | (_ & _ & E)]]]];
      rewrite E in H; discriminate H.
  - intros H. exfalso.
    destruct (escape_char_cases c1)
      as [(_ & E) | [(_ & E) | [(_ & E) | [(_ & E) | (_ & _ & E)]]]];
      rewrite E in H; discriminate H.
  - intros H. apply escape_char_head in H. destruct H as (-> & H).
    now rewrite (IH b H).
Qed.

(** ** The context sent with a question, continued *)

(** X12: the context does not keep messages apart: two consecutive messages
    and the single message whose content is the first content, a newline and
    the line of the second give the same context, although the histories
    differ.  A stored answer that spans several lines can therefore read as
    further turns of the conversation. *)
Theorem X12_context_merges_messages (m1 m2 : Message) (rest : list Message) :
  let merged :=
    {| role := role m1;
       content := (content m1 ++ newline ++ role m2 ++ ": " ++ content m2)%string |} in
  build_context (m1 :: m2 :: rest) = build_context (merged :: rest)
  /\ m1 :: m2 :: rest <> merged :: rest.
Proof.
  intros merged. split.
  - unfold build_context, merged, history_line. cbn [map role content].
    destruct rest as [|m3 rest]; cbn [String.concat map];
      now rewrite !string_app_assoc.
  - intros H. apply (f_equal (@length Message)) in H. cbn [length] in H. lia.
Qed.

(** ** The further theorems at concrete inputs *)

Lemma X1_request_agent_matches_toggles_witness :
  let w := question_submitted true false "Q1" in
  let agent := {| name := "Research Assistant";
                  instructions := agent_instructions;
                  tools := [WebSearchTool] |} in
  let prompt := build_prompt (build_context [user_message "Q1"]) "Q1" in
  In (agent, prompt)
     (runner_calls (effects_of (script_run "vs_1" (stub_answers "A1") w initial_state)))
  /\ tools agent <> []
  /\ (In WebSearchTool (tools agent) <-> web_search_toggle w = true)
  /\ (forall n ids,
        In (FileSearchTool n ids) (tools agent)
        <-> file_search_toggle w = true /\ n = 3 /\ ids = ["vs_1"])
  /\ name agent = "Research Assistant"
  /\ instructions agent = agent_instructions.
Proof.
  split; [left; reflexivity |].
  exact (X1_request_agent_matches_toggles "vs_1" (stub_answers "A1")
           (question_submitted true false "Q1") initial_state
           {| name := "Research Assistant";
              instructions := agent_instructions;
              tools := [WebSearchTool] |}
           (build_prompt (build_context [user_message "Q1"]) "Q1")
           (or_introl eq_refl)).
Defined.

Lemma X3_ended_stays_ended_witness :
  let s := state_of (end_conversation initial_state) in
  let steps := [ {| widgets := question_submitted true true "Q1";
                    runtime := stub_answers "A1" |};
                 {| widgets := clear_button_clicked;
                    runtime := stub_fails "unused" |};
                 {| widgets := question_submitted false true "Q2";
                    runtime := stub_fails "quota exceeded" |} ] in
  conversation_active s = false
  /\ conversation_active (session_run "vs_1" steps s) = false.
Proof.
  split; [reflexivity |].
  exact (X3_ended_stays_ended "vs_1"
           [ {| widgets := question_submitted true true "Q1";
                runtime := stub_answers "A1" |};
             {| widgets := clear_button_clicked;
                runtime := stub_fails "unused" |};
             {| widgets := question_submitted false true "Q2";
                runtime := stub_fails "quota exceeded" |} ]
           (state_of (end_conversation initial_state)) eq_refl).
Defined.

Lemma X4_stored_roles_known_witness :
  let steps := [ {| widgets := question_submitted true true "Q1";
                    runtime := stub_answers "A1" |};
                 {| widgets := end_button_clicked;
                    runtime := stub_fails "unused" |};
                 {| widgets := question_submitted false true "Q2";
                    runtime := stub_fails "quota exceeded" |} ] in
  forallb known_role (messages initial_state) = true
  /\ forallb known_role (messages (session_run "vs_1" steps initial_state)) = true.
Proof.
  split; [reflexivity |].
  exact (X4_stored_roles_known "vs_1"
           [ {| widgets := question_submitted true true "Q1";
                runtime := stub_answers "A1" |};
             {| widgets := end_button_clicked;
                runtime := stub_fails "unused" |};
             {| widgets := question_submitted false true "Q2";
                runtime := stub_fails "quota exceeded" |} ]
           initial_state eq_refl).
Defined.

Lemma X5_history_only_grows_witness :
  let s := state_of (end_conversation initial_state) in
  let w := question_submitted true true "Q1" in
  clear_clicked w = false
  /\ exists added,
      messages (state_of (script_run "vs_1" (stub_answers "A1") w s))
      = messages s ++ added
      /\ length added <= 2.
Proof.
  split; [reflexivity |].
  exact (X5_history_only_grows "vs_1" (stub_answers "A1")
           (question_submitted true true "Q1")
           (state_of (end_conversation initial_state)) eq_refl).
Defined.

Lemma X8_empty_submission_ignored_witness :
  let s := state_of (end_conversation initial_state) in
  let w := question_submitted true true "" in
  let out := script_run "vs_1" (stub_answers "A1") w s in
  clear_clicked w = false
  /\ end_clicked w = false
  /\ (chat_input w = None \/ chat_input w = Some "")
  /\ result_of out = Ok tt
  /\ messages (state_of out) = messages s
  /\ conversation_active (state_of out) = conversation_active s
  /\ runner_calls (effects_of out) = []
  /\ error_boxes (effects_of out) = [].
Proof.
  split; [reflexivity | split; [reflexivity | split; [right; reflexivity |]]].
  exact (X8_empty_submission_ignored "vs_1" (stub_answers "A1")
           (question_submitted true true "")
           (state_of (end_conversation initial_state))
           eq_refl eq_refl (or_intror eq_refl)).
Defined.

Lemma X9_rejection_shows_both_notices_witness :
  let w := question_submitted false false "test" in
  let out := script_run "vs_1" (stub_answers "A1") w initial_state in
  error_boxes (effects_of out) <> []
  /\ error_boxes (effects_of out) = [no_tool_error]
  /\ sidebar_warnings (effects_of out) = [no_tool_warning]
  /\ web_search_toggle w = false
  /\ file_search_toggle w = false
  /\ messages (state_of out) = messages initial_state
  /\ runner_calls (effects_of out) = []
  /\ result_of out = Ok tt.
Proof.
  assert (Hbox :
    error_boxes
      (effects_of (script_run "vs_1" (stub_answers "A1")
                     (question_submitted false false "test") initial_state))
    <> []).
  { intros H. discriminate H. }
  split; [exact Hbox |].
  exact (X9_rejection_shows_both_notices "vs_1" (stub_answers "A1")
           (question_submitted false false "test") initial_state Hbox).
Defined.

Lemma X11_escape_content_injective_witness :
  escape_content "a<b & c" = escape_content "a<b & c"
  /\ "a<b & c" = "a<b & c".
Proof.
  split; [reflexivity |].
  exact (X11_escape_content_injective "a<b & c" "a<b & c" eq_refl).
Defined.

Lemma X13_next_turn_extends_context_witness :
  canSend initial_state = true
  /\ stub_answers "A1" (research_assistant "vs_1" initial_state)
       (build_prompt (build_context (messages initial_state ++ [user_message "Q1"])) "Q1")
     = FinalOutput "A1"
  /\ runner_calls
       (effects_of
          (ask "vs_1" (stub_fails "quota exceeded") "Q2"
             (state_of (ask "vs_1" (stub_answers "A1") "Q1" initial_state)))) =
     [(research_assistant "vs_1" initial_state,
       build_prompt
         (build_context (messages initial_state ++ [user_message "Q1"])
            ++ newline ++ "assistant: " ++ "A1"
            ++ newline ++ "user: " ++ "Q2")%string
         "Q2")].
Proof.
  split; [reflexivity | split; [reflexivity |]].
  exact (X13_next_turn_extends_context "vs_1" (stub_answers "A1")
           (stub_fails "quota exceeded") initial_state "Q1" "Q2" "A1"
           eq_refl eq_refl).
Defined.
